(** * udata-front: feed summary extractor and resilient page fetcher

    A shallow embedding of
      - [udata_front/theme/gouvfr/__init__.py]  (get_blog_post and its two
        regular expressions), and
      - [udata_front/views/gouvfr.py]  (get_pages_gh_urls,
        detect_pages_extension, get_page_content_locale, get_page_content,
        get_object, get_objects_from_tags, show_page),
    followed by the properties of the specification that concern them.

    Python text is modelled as ASCII [string]s.  Names bound to [None] are
    [option] values; a raised exception is an explicit outcome. *)

From Stdlib Require Import ZArith Ascii String List Bool Lia.
From Stdlib Require Import Orders Sorting.Sorted Sorting.Permutation Sorting.Mergesort.
From stdpp Require Import base option gmap strings.

Import ListNotations.
Local Open Scope string_scope.
Local Open Scope list_scope.

(* ===================================================================== *)
(** * Text helpers (Python [str] methods used by the source)             *)
(* ===================================================================== *)

Module Text.

(** The double quote, written by its code so that no literal needs an
    escaped quote. *)
Definition dquote : ascii := ascii_of_nat 34.
Definition dq : string := String dquote EmptyString.

Definition chars (s : string) : list ascii := list_ascii_of_string s.
Definition text (l : list ascii) : string := string_of_list_ascii l.

(** ASCII lower-casing, the folding [re.I] performs on ASCII letters. *)
Definition lower (c : ascii) : ascii :=
  let n := nat_of_ascii c in
  if (65 <=? n)%nat && (n <=? 90)%nat then ascii_of_nat (n + 32) else c.

(** Characters for which [str.isspace] holds (and which [\s] matches) in
    the ASCII range: TAB, LF, VT, FF, CR, FS, GS, RS, US and SPACE. *)
Definition is_space (c : ascii) : bool :=
  let n := nat_of_ascii c in
  ((9 <=? n)%nat && (n <=? 13)%nat)
  || ((28 <=? n)%nat && (n <=? 31)%nat)
  || (n =? 32)%nat.

Fixpoint lstrip (l : list ascii) : list ascii :=
  match l with
  | c :: l' => if is_space c then lstrip l' else l
  | [] => []
  end.

Definition rstrip (l : list ascii) : list ascii := rev (lstrip (rev l)).

(** [s.strip()] *)
Definition strip (s : string) : string := text (rstrip (lstrip (chars s))).

Fixpoint starts_with (p l : list ascii) : bool :=
  match p, l with
  | [], _ => true
  | a :: p', b :: l' => if Ascii.eqb a b then starts_with p' l' else false
  | _ :: _, [] => false
  end.

(** [s.replace(old, new)] for a non-empty [old]: every non-overlapping
    occurrence, scanning from the left. *)
Fixpoint replace_chars (fuel : nat) (old new l : list ascii) : list ascii :=
  match fuel with
  | O => l
  | S fuel' =>
      match l with
      | [] => []
      | c :: l' =>
          if starts_with old l
          then new ++ replace_chars fuel' old new (skipn (length old) l)
          else c :: replace_chars fuel' old new l'
      end
  end.

Definition replace (old new s : string) : string :=
  text (replace_chars (String.length s) (chars old) (chars new) (chars s)).

(** [s[:n]] *)
Definition prefix (n : nat) (s : string) : string := text (firstn n (chars s)).

End Text.

(* ===================================================================== *)
(** * A backtracking matcher for the [re] patterns of the source         *)
(* ===================================================================== *)

Module Re.
Import Text.

(** Abstract syntax of the fragment of Python's [re] the two patterns
    use.  Quantifiers carry their greediness; [Rep g lo r] is [r{lo,}]
    ([*] for [lo = 0], [+] for [lo = 1]), lazy when [g] is false. *)
Inductive re : Type :=
| Eps
| Chr (c : ascii)
| Dot
| Spc
| Cls (negated : bool) (cs : list ascii)
| Cat (r1 r2 : re)
| Alt (r1 r2 : re)
| Opt (greedy : bool) (r : re)
| Rep (greedy : bool) (lo : nat) (r : re)
| Grp (name : string) (r : re).

(** Compilation flags that change matching: [re.I] and [re.S].  ([re.X]
    only changes how the pattern text is read; [re.M] only changes the
    anchors, which neither pattern has.) *)
Record flags := { IGNORECASE : bool; DOTALL : bool }.

(** Group bindings of one match attempt: name and span, latest first. *)
Definition caps := list (string * (nat * nat)).

Fixpoint lit_chars (l : list ascii) : re :=
  match l with
  | [] => Eps
  | [c] => Chr c
  | c :: l' => Cat (Chr c) (lit_chars l')
  end.

(** A run of literal characters. *)
Definition lit (s : string) : re := lit_chars (chars s).

Fixpoint seq (rs : list re) : re :=
  match rs with
  | [] => Eps
  | [r] => r
  | r :: rs' => Cat r (seq rs')
  end.

Section Matcher.
Variable fl : flags.
Variable s : list ascii.

Definition chr_eq (c x : ascii) : bool :=
  if IGNORECASE fl then Ascii.eqb (lower c) (lower x) else Ascii.eqb c x.

Definition dot_ok (x : ascii) : bool :=
  DOTALL fl || negb (Ascii.eqb x (ascii_of_nat 10)).

Definition cls_ok (negated : bool) (cs : list ascii) (x : ascii) : bool :=
  xorb negated (existsb (fun c => chr_eq c x) cs).

Definition one (ok : ascii -> bool) (i : nat) (cs : caps)
    (k : nat -> caps -> option (nat * caps)) : option (nat * caps) :=
  match nth_error s i with
  | Some x => if ok x then k (S i) cs else None
  | None => None
  end.

(** [m r i cs k]: match [r] at index [i] with bindings [cs], then
    continue with [k]; alternatives are tried in the order a
    backtracking engine tries them, and the first overall success is
    the answer.  A quantified body is iterated at most once per
    remaining character: an iteration that consumes nothing is cut. *)
Fixpoint m (r : re) (i : nat) (cs : caps)
    (k : nat -> caps -> option (nat * caps)) {struct r}
    : option (nat * caps) :=
  match r with
  | Eps => k i cs
  | Chr c => one (chr_eq c) i cs k
  | Dot => one dot_ok i cs k
  | Spc => one is_space i cs k
  | Cls neg l => one (cls_ok neg l) i cs k
  | Cat r1 r2 => m r1 i cs (fun j cs' => m r2 j cs' k)
  | Alt r1 r2 =>
      match m r1 i cs k with
      | Some res => Some res
      | None => m r2 i cs k
      end
  | Opt g r1 =>
      if g then
        match m r1 i cs k with
        | Some res => Some res
        | None => k i cs
        end
      else
        match k i cs with
        | Some res => Some res
        | None => m r1 i cs k
        end
  | Rep g lo r1 =>
      (fix loop (fuel n i : nat) (cs : caps) {struct fuel}
         : option (nat * caps) :=
         match fuel with
         | O => None
         | S fuel' =>
             if g then
               match m r1 i cs (fun j cs' =>
                       if (i <? j)%nat then loop fuel' (S n) j cs'
                       else None) with
               | Some res => Some res
               | None => if (lo <=? n)%nat then k i cs else None
               end
             else
               match (if (lo <=? n)%nat then k i cs else None) with
               | Some res => Some res
               | None =>
                   m r1 i cs (fun j cs' =>
                     if (i <? j)%nat then loop fuel' (S n) j cs'
                     else None)
               end
         end) (S (length s - i)) O i cs
  | Grp name r1 => m r1 i cs (fun j cs' => k j ((name, (i, j)) :: cs'))
  end.

Definition match_at (r : re) (i : nat) : option (nat * caps) :=
  m r i [] (fun j cs => Some (j, cs)).

Fixpoint search_from (r : re) (fuel i : nat) : option (nat * nat * caps) :=
  match match_at r i with
  | Some (j, cs) => Some (i, j, cs)
  | None =>
      match fuel with
      | O => None
      | S fuel' => search_from r fuel' (S i)
      end
  end.

(** [pattern.sub(repl, s)] for a pattern that never matches the empty
    string. *)
Fixpoint sub_from (r : re) (repl : list ascii) (fuel i : nat) : list ascii :=
  match fuel with
  | O => skipn i s
  | S fuel' =>
      match match_at r i with
      | Some (j, _) =>
          if (i <? j)%nat then repl ++ sub_from r repl fuel' j
          else match nth_error s i with
               | Some c => c :: sub_from r repl fuel' (S i)
               | None => []
               end
      | None =>
          match nth_error s i with
          | Some c => c :: sub_from r repl fuel' (S i)
          | None => []
          end
      end
  end.
End Matcher.

(** A match object: the subject and the bindings of the successful
    attempt. *)
Record Match := { subject : list ascii; span : nat * nat; groups : caps }.

(** [pattern.search(s)]: leftmost start, first success of the
    backtracking order. *)
Definition search (fl : flags) (r : re) (s : string) : option Match :=
  match search_from fl (chars s) r (String.length s) 0 with
  | Some (i, j, cs) =>
      Some {| subject := chars s; span := (i, j); groups := cs |}
  | None => None
  end.

Fixpoint lookup_group (name : string) (cs : caps) : option (nat * nat) :=
  match cs with
  | [] => None
  | (n, sp) :: cs' => if String.eqb n name then Some sp else lookup_group name cs'
  end.

(** [match.group(name)]: [None] when the group did not take part. *)
Definition group (name : string) (mt : Match) : option string :=
  match lookup_group name (groups mt) with
  | Some (i, j) => Some (text (firstn (j - i) (skipn i (subject mt))))
  | None => None
  end.

Definition sub (fl : flags) (r : re) (repl s : string) : string :=
  text (sub_from fl (chars s) r (chars repl) (S (String.length s)) 0).

End Re.

(* ===================================================================== *)
(** * theme/gouvfr/__init__.py: constants                                *)
(* ===================================================================== *)

Import Text.

(** [RE_POST_IMG], compiled with [re.I | re.X | re.S].  Under [re.X] the
    blanks and line breaks of the pattern text are not part of the pattern,
    so it reads
      <img.*?  (?: (?: src="(?P<src>https?://.+?)"
                     | srcset="(?P<srcset>.+?)"
                     | sizes="(?P<sizes>.+?)" ) \s* )+  .*?/>
    and in particular ends with the two characters of a self-closed tag. *)
Definition RE_POST_IMG_flags : Re.flags :=
  {| Re.IGNORECASE := true; Re.DOTALL := true |}.

Definition RE_POST_IMG : Re.re :=
  Re.seq
    [ Re.lit "<img";
      Re.Rep false 0 Re.Dot;
      Re.Rep true 1
        (Re.Cat
           (Re.Alt
              (Re.seq [ Re.lit "src="; Re.Chr dquote;
                        Re.Grp "src"
                          (Re.seq [ Re.lit "http"; Re.Opt true (Re.Chr "s");
                                    Re.lit "://"; Re.Rep false 1 Re.Dot ]);
                        Re.Chr dquote ])
              (Re.Alt
                 (Re.seq [ Re.lit "srcset="; Re.Chr dquote;
                           Re.Grp "srcset" (Re.Rep false 1 Re.Dot);
                           Re.Chr dquote ])
                 (Re.seq [ Re.lit "sizes="; Re.Chr dquote;
                           Re.Grp "sizes" (Re.Rep false 1 Re.Dot);
                           Re.Chr dquote ])))
           (Re.Rep true 0 Re.Spc));
      Re.Rep false 0 Re.Dot;
      Re.lit "/>" ].

(** [RE_STRIP_TAGS = re.compile(r"</?(img|br|p|div|ul|li|ol)[^<>]*?>", re.I | re.M)] *)
Definition RE_STRIP_TAGS_flags : Re.flags :=
  {| Re.IGNORECASE := true; Re.DOTALL := false |}.

Definition RE_STRIP_TAGS : Re.re :=
  Re.seq
    [ Re.Chr "<";
      Re.Opt true (Re.Chr "/");
      Re.Grp "1"
        (Re.Alt (Re.lit "img")
           (Re.Alt (Re.lit "br")
              (Re.Alt (Re.lit "p")
                 (Re.Alt (Re.lit "div")
                    (Re.Alt (Re.lit "ul")
                       (Re.Alt (Re.lit "li") (Re.lit "ol")))))));
      Re.Rep false 0 (Re.Cls true [ "<"%char; ">"%char ]);
      Re.Chr ">" ].

(** [WP_TIMEOUT = 5] *)
Definition WP_TIMEOUT : Z := 5.

(** [FEED_THUMBNAIL_MIMES] *)
Definition FEED_THUMBNAIL_MIMES : list string :=
  [ "image/jpeg"; "image/png"; "image/webp" ].

(* ===================================================================== *)
(** * Outcomes, the world and the environment                            *)
(* ===================================================================== *)

(** The subclasses of [requests.RequestException] the source tells apart
    ([requests.Timeout]) or produces itself ([HTTPError], from
    [raise_for_status]). *)
Inductive request_exception : Type :=
| Timeout
| ConnectionError
| HTTPError (status : Z)
| OtherRequestException.

(** Exceptions that can leave a function of the source. *)
Inductive exn : Type :=
| RequestException (e : request_exception)
| HTTPException (code : Z)            (* werkzeug, raised by [abort(code)] *)
| UnboundLocalError (name : string)   (* a local read before any assignment *)
| TypeError
| AttributeError
| IndexError
| ParserError                         (* dateutil.parser *)
| FormatError                         (* KeyError/IndexError/ValueError of str.format *)
| FrontmatterError.                   (* the YAML reader of frontmatter.loads *)

Inductive result (A : Type) : Type :=
| Return (a : A)
| Raise (e : exn).
Arguments Return {A} a.
Arguments Raise {A} e.

Definition rbind {A B} (r : result A) (k : A -> result B) : result B :=
  match r with
  | Return a => k a
  | Raise e => Raise e
  end.

Notation "x <-? r ;; k" := (rbind r (fun x => k))
  (at level 100, r at next level, right associativity).

Inductive http_method : Type := GET | HEAD.

Record Response := {
  status_code : Z;
  text : string;      (* [response.text] *)
  content : string    (* [response.content] *)
}.

(** What the process does to the outside, in the order it does it. *)
Inductive event : Type :=
| HttpRequest (method : http_method) (url : string) (timeout : option Z)
| CacheGet (key : string)
| CacheSet (key : string) (value : string)
| Log (message : string) (exc_info : option exn).

(** ** Feed entries, as [feedparser] hands them to [get_blog_post] *)

Module Post.
(** The source subscripts [thumbnail["url"]] and [enclosure["href"]] and
    reads [enclosure.get("type")]: the first two are taken as present, the
    type as optional. *)
Record thumbnail := { url : string }.
Record enclosure := { type : option string; href : string }.
(** [content] is the list of the [value]s of the content items; an item
    without a [value] key is [None]. *)
Record t := {
  title : string;
  link : string;
  published : string;
  description : option string;
  content : option (list (option string));
  summary : option string;
  media_thumbnail : list thumbnail;
  enclosures : list enclosure
}.
End Post.

Record Feed := { entries : list Post.t }.

(** The [blogpost] dictionary: the four keys of the literal and of line
    162 are always there, the three others only once assigned. *)
Module Blogpost.
Record t := {
  title : string;
  link : string;
  date : Z;
  summary : string;
  image_url : option string;
  srcset : option string;
  sizes : option string
}.
Definition set_image_url (v : string) (b : t) : t :=
  {| title := title b; link := link b; date := date b; summary := summary b;
     image_url := Some v; srcset := srcset b; sizes := sizes b |}.
Definition set_srcset (v : string) (b : t) : t :=
  {| title := title b; link := link b; date := date b; summary := summary b;
     image_url := image_url b; srcset := Some v; sizes := sizes b |}.
Definition set_sizes (v : string) (b : t) : t :=
  {| title := title b; link := link b; date := date b; summary := summary b;
     image_url := image_url b; srcset := srcset b; sizes := Some v |}.
End Blogpost.

(** ** Domain objects of the resource repository *)

Inductive model : Type := Reuse | Dataset.

Module Obj.
Record t := {
  id : string;
  slug : string;
  tags : list string;
  created_at : Z;
  visible : bool
}.
End Obj.

(** The front matter of a page: [page.get(key)] for the two keys
    [show_page] reads.  A list item is a string or YAML null. *)
Record Page := {
  reuses : option (list (option string));
  datasets : option (list (option string))
}.

(** The return value of [get_page_content_locale]:
    [(content, gh_url, extension)]. *)
Definition PageResult : Type := option string * string * string.

(** ** The environment: configuration and collaborators

    Everything the source reads but does not own.  [http n meth url] is
    the answer to the [n]-th request the process sends, so that the same
    URL may answer differently over time. *)
Record Env := {
  WP_ATOM_URL : option string;
  DEFAULT_LANGUAGE : string;
  PAGES_GH_REPO_NAME : option string;
  PAGES_REPO_BRANCH : option string;
  lang_code : option string;                         (* [g.lang_code] *)
  http : nat -> http_method -> string -> Response + request_exception;
  str_format : string -> string -> result string;    (* [template.format(lang=code)] *)
  feedparser_parse : string -> Feed;
  dateutil_parse : string -> option Z;
  frontmatter_loads : string -> result Page;
  objects : model -> list Obj.t;                      (* documents, in natural order *)
  tags_match : list string -> list string -> bool    (* [filter(tags=q)] on a document's tags *)
}.

(** ** The world: the cache backend and the trace

    [fallback] holds the keys written by [cache.set] in
    [get_page_content_locale]; [memo_page] and [memo_post] hold what the
    two [@cache.memoize] decorators store, with the time each entry
    expires.  [now] is the clock, moved by the environment only. *)
Record World := {
  now : Z;
  sent : nat;
  fallback : gmap string string;
  memo_page : gmap (string * option string) (Z * PageResult);
  memo_post : gmap string (Z * option Blogpost.t);
  trace : list event
}.

Definition emit (e : event) (w : World) : World :=
  {| now := now w; sent := sent w; fallback := fallback w;
     memo_page := memo_page w; memo_post := memo_post w;
     trace := trace w ++ [e] |}.

(** ** The monad of the source: state and exceptions *)

Definition M (A : Type) : Type := World -> result A * World.

Definition ret {A} (a : A) : M A := fun w => (Return a, w).
Definition raise {A} (e : exn) : M A := fun w => (Raise e, w).
Definition bind {A B} (c : M A) (k : A -> M B) : M B :=
  fun w =>
    match c w with
    | (Return a, w') => k a w'
    | (Raise e, w') => (Raise e, w')
    end.
Definition lift {A} (r : result A) : M A := fun w => (r, w).

Notation "x <- c ;; k" := (bind c (fun x => k))
  (at level 100, c at next level, right associativity).
Notation "c ;;; k" := (bind c (fun _ => k))
  (at level 100, right associativity).

(** [try: x = c  except <handles>: h  else: k x].  The handler runs in the
    world the exception left behind; exceptions of [h] and of [k] are not
    caught. *)
Definition try_except_else {A B} (c : M A) (handles : exn -> bool)
    (h : exn -> M B) (k : A -> M B) : M B :=
  fun w =>
    match c w with
    | (Return a, w') => k a w'
    | (Raise e, w') => if handles e then h e w' else (Raise e, w')
    end.

Definition is_RequestException (e : exn) : bool :=
  match e with RequestException _ => true | _ => false end.

Definition is_Timeout (e : exn) : bool :=
  match e with RequestException Timeout => true | _ => false end.

(** Python truth of an optional string: neither [None] nor empty. *)
Definition truthy (o : option string) : bool :=
  match o with
  | Some s => negb (String.eqb s "")
  | None => false
  end.

(** [order_by('-created_at')]: newest first. *)
Module NewestFirst <: Orders.TotalLeBool.
Definition t := Obj.t.
Definition leb (a b : Obj.t) : bool := (Obj.created_at b <=? Obj.created_at a)%Z.
Definition leb_total : forall a b, leb a b = true \/ leb b a = true.
Proof. intros a b. unfold leb. lia. Qed.
End NewestFirst.

Module OrderBy := Mergesort.Sort NewestFirst.

(* ===================================================================== *)
(** * The source                                                         *)
(* ===================================================================== *)

Section Source.
Variable E : Env.

(** ** Collaborators: requests, logging, the cache *)

Definition send (method : http_method) (url : string) (timeout : option Z)
    : M Response :=
  fun w =>
    let w' := {| now := now w; sent := S (sent w); fallback := fallback w;
                 memo_page := memo_page w; memo_post := memo_post w;
                 trace := trace w ++ [HttpRequest method url timeout] |} in
    match http E (sent w) method url with
    | inl response => (Return response, w')
    | inr e => (Raise (RequestException e), w')
    end.

(** [requests.get(url, timeout=...)] and [requests.head(url)] *)
Definition requests_get (url : string) (timeout : option Z) : M Response :=
  send GET url timeout.
Definition requests_head (url : string) (timeout : option Z) : M Response :=
  send HEAD url timeout.

(** [response.raise_for_status()] *)
Definition raise_for_status (response : Response) : M unit :=
  if ((400 <=? status_code response) && (status_code response <? 600))%Z
  then raise (RequestException (HTTPError (status_code response)))
  else ret tt.

Definition log_error (message : string) (exc : option exn) : M unit :=
  fun w => (Return tt, emit (Log message exc) w).

(** [cache.get(key)] and [cache.set(key, value)] on the fallback keys *)
Definition cache_get (key : string) : M (option string) :=
  fun w => (Return (fallback w !! key), emit (CacheGet key) w).

Definition cache_set (key value : string) : M unit :=
  fun w =>
    (Return tt,
     emit (CacheSet key value)
       {| now := now w; sent := sent w;
          fallback := <[key := value]> (fallback w);
          memo_page := memo_page w; memo_post := memo_post w;
          trace := trace w |}).

(** [abort(code)] *)
Definition abort {A} (code : Z) : M A := raise (HTTPException code).

(** Reading a local name that may not have been assigned. *)
Definition read_local {A} (name : string) (v : option A) : M A :=
  match v with
  | Some a => ret a
  | None => raise (UnboundLocalError name)
  end.

(** [@cache.memoize(ttl)]: an entry that has not expired answers for the
    function; otherwise the function runs and, unless it raises, its
    value is stored for [ttl] seconds.  A stored [None] counts as a
    miss. *)
Definition memoize_page (ttl : Z) (key : string * option string)
    (f : M PageResult) : M PageResult :=
  fun w =>
    let run :=
      match f w with
      | (Return rv, w') =>
          (Return rv,
           {| now := now w'; sent := sent w'; fallback := fallback w';
              memo_page := <[key := ((now w' + ttl)%Z, rv)]> (memo_page w');
              memo_post := memo_post w'; trace := trace w' |})
      | (Raise e, w') => (Raise e, w')
      end in
    match memo_page w !! key with
    | Some (expires, rv) => if (now w <? expires)%Z then (Return rv, w) else run
    | None => run
    end.

Definition memoize_post (ttl : Z) (key : string)
    (f : M (option Blogpost.t)) : M (option Blogpost.t) :=
  fun w =>
    let run :=
      match f w with
      | (Return rv, w') =>
          (Return rv,
           {| now := now w'; sent := sent w'; fallback := fallback w';
              memo_page := memo_page w';
              memo_post := <[key := ((now w' + ttl)%Z, rv)]> (memo_post w');
              trace := trace w' |})
      | (Raise e, w') => (Raise e, w')
      end in
    match memo_post w !! key with
    | Some (expires, Some rv) =>
        if (now w <? expires)%Z then (Return (Some rv), w) else run
    | _ => run
    end.

(** ** theme/gouvfr/__init__.py: get_blog_post *)

(** Lines 138-151, the loop [for code in lang, DEFAULT_LANGUAGE]; [feed]
    is the variable of line 136. *)
Fixpoint fetch_feed (wp_atom_url : string) (codes : list string)
    (feed : option Feed) : M (option Feed) :=
  match codes with
  | [] => ret feed
  | code :: codes' =>
      feed_url <- lift (str_format E wp_atom_url code) ;;
      try_except_else (requests_get feed_url (Some WP_TIMEOUT))
        is_RequestException
        (fun e =>
           log_error
             ((if is_Timeout e then "Timeout while fetching "
               else "Error while fetching ") +:+ feed_url) (Some e) ;;;
           fetch_feed wp_atom_url codes' feed)                (* continue *)
        (fun response =>
           let feed' := feedparser_parse E (content response) in
           if (0 <? length (entries feed'))%nat
           then ret (Some feed')                              (* break *)
           else fetch_feed wp_atom_url codes' (Some feed'))
  end.

(** Line 160: [post.get("content", [{}])[0].get("value") or description] *)
Definition post_content (post : Post.t) : result (option string) :=
  let description := Post.description post in
  match default [None] (Post.content post) with
  | [] => Raise IndexError
  | value :: _ => Return (if truthy value then value else description)
  end.

(** Line 161: [post.get("summary", content)] *)
Definition post_summary (post : Post.t) (content : option string)
    : option string :=
  match Post.summary post with
  | Some s => Some s
  | None => content
  end.

(** Line 162: [RE_STRIP_TAGS.sub("", summary).strip()] *)
Definition strip_tags (summary : option string) : result string :=
  match summary with
  | Some s => Return (strip (Re.sub RE_STRIP_TAGS_flags RE_STRIP_TAGS "" s))
  | None => Raise TypeError
  end.

Definition accepted_enclosure (enclosure : Post.enclosure) : bool :=
  match Post.type enclosure with
  | Some t => existsb (String.eqb t) FEED_THUMBNAIL_MIMES
  | None => false
  end.

(** Lines 164-166 *)
Definition thumbnail_from_media (post : Post.t) (blogpost : Blogpost.t)
    : Blogpost.t :=
  match Post.media_thumbnail post with
  | thumbnail :: _ => Blogpost.set_image_url (Post.url thumbnail) blogpost
  | [] => blogpost
  end.

(** Lines 168-172 *)
Definition thumbnail_from_enclosures (post : Post.t) (blogpost : Blogpost.t)
    : Blogpost.t :=
  match Blogpost.image_url blogpost with
  | Some _ => blogpost
  | None =>
      match List.find accepted_enclosure (Post.enclosures post) with
      | Some enclosure => Blogpost.set_image_url (Post.href enclosure) blogpost
      | None => blogpost
      end
  end.

(** Lines 174-181 *)
Definition thumbnail_from_content (content : option string)
    (blogpost : Blogpost.t) : result Blogpost.t :=
  match Blogpost.image_url blogpost with
  | Some _ => Return blogpost
  | None =>
      match content with
      | None => Raise TypeError
      | Some html =>
          match Re.search RE_POST_IMG_flags RE_POST_IMG html with
          | None => Return blogpost
          | Some mt =>
              match Re.group "src" mt with
              | None => Raise AttributeError
              | Some src =>
                  let blogpost :=
                    Blogpost.set_image_url (replace "&amp;" "&" src) blogpost in
                  let blogpost :=
                    match Re.group "srcset" mt with
                    | Some v =>
                        if truthy (Some v)
                        then Blogpost.set_srcset (replace "&amp;" "&" v) blogpost
                        else blogpost
                    | None => blogpost
                    end in
                  let blogpost :=
                    match Re.group "sizes" mt with
                    | Some v =>
                        if truthy (Some v)
                        then Blogpost.set_sizes v blogpost
                        else blogpost
                    | None => blogpost
                    end in
                  Return blogpost
              end
          end
      end
  end.

(** Lines 158-162: the dictionary before any thumbnail is looked for. *)
Definition blogpost_base (post : Post.t) (date : Z) (summary : string)
    : Blogpost.t :=
  {| Blogpost.title := Post.title post; Blogpost.link := Post.link post;
     Blogpost.date := date; Blogpost.summary := summary;
     Blogpost.image_url := None; Blogpost.srcset := None;
     Blogpost.sizes := None |}.

(** Lines 156-183, from [post = feed.entries[0]] to [return blogpost]. *)
Definition summarize (post : Post.t) : result Blogpost.t :=
  date <-? match dateutil_parse E (Post.published post) with
           | Some d => Return d
           | None => Raise ParserError
           end ;;
  content <-? post_content post ;;
  summary <-? strip_tags (post_summary post content) ;;
  let blogpost := blogpost_base post date summary in
  let blogpost := thumbnail_from_media post blogpost in
  let blogpost := thumbnail_from_enclosures post blogpost in
  thumbnail_from_content content blogpost.

(** The decorated function's body. *)
Definition get_blog_post_uncached (lang : string) : M (option Blogpost.t) :=
  if truthy (WP_ATOM_URL E) then
    feed <- fetch_feed (default "" (WP_ATOM_URL E))
              [lang; DEFAULT_LANGUAGE E] None ;;
    match feed with
    | None => ret None
    | Some feed =>
        match entries feed with
        | [] => ret None
        | post :: _ => blogpost <- lift (summarize post) ;; ret (Some blogpost)
        end
    end
  else ret None.

(** [@cache.memoize(50) def get_blog_post(lang)] *)
Definition get_blog_post (lang : string) : M (option Blogpost.t) :=
  memoize_post 50 lang (get_blog_post_uncached lang).

(** ** views/gouvfr.py *)

(** [PAGE_CACHE_DURATION = 60 * 5] *)
Definition PAGE_CACHE_DURATION : Z := 60 * 5.

Definition get_pages_gh_urls (slug : string) (locale : option string)
    : M (string * string) :=
  let repo := PAGES_GH_REPO_NAME E in
  if negb (truthy repo) then abort 404
  else
    let repo := default "" repo in
    let branch := default "master" (PAGES_REPO_BRANCH E) in
    if truthy locale then
      let locale := default "" locale in
      let raw_url := "https://raw.githubusercontent.com/" +:+ repo +:+ "/"
                     +:+ branch +:+ "/pages/" +:+ locale +:+ "/" +:+ slug in
      let gh_url := "https://github.com/" +:+ repo +:+ "/blob/" +:+ branch
                    +:+ "/pages/" +:+ slug in
      ret (raw_url, gh_url)
    else
      let raw_url := "https://raw.githubusercontent.com/" +:+ repo +:+ "/"
                     +:+ branch +:+ "/pages/" +:+ slug in
      let gh_url := "https://github.com/" +:+ repo +:+ "/blob/" +:+ branch
                    +:+ "/pages/" +:+ slug in
      ret (raw_url, gh_url).

(** [requests.head] is called with the URL alone. *)
Definition detect_pages_extension (raw_url : string) : M string :=
  response <- requests_head (raw_url +:+ ".md") None ;;
  if (status_code response =? 200)%Z then ret "md" else ret "html".

Definition page_cache_key (slug : string) (locale : option string) : string :=
  "pages-content-" +:+ slug +:+ "-"
  +:+ match locale with None => "default" | Some l => l end.

(** The [except requests.exceptions.RequestException as e] clause and
    the [return] that follows it (lines 111-113 and 117), entered with
    the values the locals [gh_url] and [extension] have at that point;
    [extension] is unassigned until [detect_pages_extension] has
    returned. *)
Definition on_request_exception (slug cache_key gh_url : string)
    (extension : option string) (e : exn) : M PageResult :=
  log_error ("Error while getting " +:+ slug +:+ " page from gh: ") (Some e) ;;;
  content <- cache_get cache_key ;;
  extension <- read_local "extension" extension ;;
  ret (content, gh_url, extension).

(** The decorated function's body.  The [try] block is cut at its three
    statements that can raise; each cut passes the locals of that point
    to the [except] clause. *)
Definition get_page_content_locale_uncached (slug : string)
    (locale : option string) : M PageResult :=
  let cache_key := page_cache_key slug locale in
  urls <- get_pages_gh_urls slug locale ;;
  let raw_url := fst urls in
  let gh_url := snd urls in
  try_except_else (detect_pages_extension raw_url) is_RequestException
    (on_request_exception slug cache_key gh_url None)
    (fun extension =>
       let raw_url := raw_url +:+ "." +:+ extension in
       let gh_url := gh_url +:+ "." +:+ extension in
       try_except_else (requests_get raw_url (Some 5%Z)) is_RequestException
         (on_request_exception slug cache_key gh_url (Some extension))
         (fun response =>
            if (status_code response =? 404)%Z
            then ret (None, gh_url, extension)
            else
              try_except_else (raise_for_status response) is_RequestException
                (on_request_exception slug cache_key gh_url (Some extension))
                (fun _ =>
                   let content := text response in
                   cache_set cache_key content ;;;
                   ret (Some content, gh_url, extension)))).

(** [@cache.memoize(PAGE_CACHE_DURATION) def get_page_content_locale] *)
Definition get_page_content_locale (slug : string) (locale : option string)
    : M PageResult :=
  memoize_page PAGE_CACHE_DURATION (slug, locale)
    (get_page_content_locale_uncached slug locale).

(** The [for ... else] of [get_page_content] over the locales left. *)
Fixpoint get_page_content_for (slug : string) (locales : list (option string))
    : M PageResult :=
  match locales with
  | [] =>
      log_error ("No content found inc. from cache for page " +:+ slug) None ;;;
      abort 404
  | locale :: locales' =>
      r <- get_page_content_locale slug locale ;;
      if truthy (fst (fst r)) then ret r                      (* break *)
      else get_page_content_for slug locales'
  end.

Definition get_page_content (slug : string) : M PageResult :=
  get_page_content_for slug [lang_code E; None].

(** A 24-digit hexadecimal string: what a query on [id] accepts; any
    other value makes it raise [ValidationError]. *)
Definition is_hex (c : ascii) : bool :=
  let n := nat_of_ascii c in
  ((48 <=? n)%nat && (n <=? 57)%nat)
  || ((65 <=? n)%nat && (n <=? 70)%nat)
  || ((97 <=? n)%nat && (n <=? 102)%nat).

Definition valid_object_id (s : string) : bool :=
  (String.length s =? 24)%nat && forallb is_hex (chars s).

Definition get_object (model : model) (id_or_slug : string) : option Obj.t :=
  let objects := objects E model in
  let obj := head (List.filter (fun o => String.eqb (Obj.slug o) id_or_slug) objects) in
  match obj with
  | Some o => Some o
  | None =>
      if valid_object_id id_or_slug
      then head (List.filter (fun o => String.eqb (Obj.id o) id_or_slug) objects)
      else obj                                   (* except ValidationError: pass *)
  end.

Definition get_objects_from_tags (model : model) (tags : list string)
    : list Obj.t :=
  OrderBy.sort
    (List.filter (fun o => tags_match E tags (Obj.tags o))
       (List.filter Obj.visible (objects E model))).

(** Lines 144-154: the loop over one front-matter list; [data] is
    [data[model_key]]. *)
Fixpoint collect (model : model) (refs : list (option string))
    (data : list Obj.t) (tags : list string) : list Obj.t * list string :=
  match refs with
  | [] => (data, tags)
  | None :: refs' => collect model refs' data tags            (* continue *)
  | Some r :: refs' =>
      let r := strip r in
      if String.eqb (prefix 4 r) "tag#"
      then collect model refs' data (tags ++ [prefix 4 r])
      else
        match get_object model r with
        | Some res => collect model refs' (data ++ [res]) tags
        | None => collect model refs' data tags
        end
  end.

(** Lines 144-156 for one model: [page.get(model_key) or []], the loop,
    then the objects found by tags. *)
Definition resolve (model : model) (listed : option (list (option string)))
    : list Obj.t :=
  let '(data, tags) := collect model (default [] listed) [] [] in
  if (0 <? length tags)%nat
  then data ++ get_objects_from_tags model tags
  else data.

End Source.

(** The arguments [show_page] hands to [theme.render("page.html", ...)]. *)
Module Render.
Record t := {
  page : Page;
  reuses : list Obj.t;
  datasets : list Obj.t;
  gh_url : string;
  extension : string
}.
End Render.

Definition show_page (E : Env) (slug : string) : M Render.t :=
  r <- get_page_content E slug ;;
  let '(content, gh_url, extension) := r in
  page <- lift (match content with
                | Some c => frontmatter_loads E c
                | None => Raise TypeError
                end) ;;
  ret {| Render.page := page;
         Render.reuses := resolve E Reuse (reuses page);
         Render.datasets := resolve E Dataset (datasets page);
         Render.gh_url := gh_url;
         Render.extension := extension |}.

(* ===================================================================== *)
(** * Vocabulary of the statements                                       *)
(* ===================================================================== *)

(** The extension a probe answer selects. *)
Definition extension_of (probe : Response) : string :=
  if (status_code probe =? 200)%Z then "md" else "html".

Definition rmap {A B} (f : A -> B) (r : result A) : result B :=
  match r with
  | Return a => Return (f a)
  | Raise e => Raise e
  end.

(** The entry an attempt yields: the first one of the parsed body, none
    when the request failed or the feed is empty. *)
Definition first_entry (E : Env) (answer : Response + request_exception)
    : option Post.t :=
  match answer with
  | inl response => head (entries (feedparser_parse E (content response)))
  | inr _ => None
  end.

(** The requests among some events, in order. *)
Definition is_request (e : event) : bool :=
  match e with HttpRequest _ _ _ => true | _ => false end.

Definition http_requests (evs : list event) : list event :=
  List.filter is_request evs.

(** A front-matter reference that is a tag marker, once trimmed. *)
Definition is_tag_marker (r : string) : bool :=
  String.eqb (prefix 4 (strip r)) "tag#".

(** The objects the direct references of a list resolve to, reference by
    reference, in the order of the list. *)
Definition direct_objects (E : Env) (model : model)
    (refs : list (option string)) : list Obj.t :=
  flat_map
    (fun r =>
       match r with
       | Some r =>
           if is_tag_marker r then []
           else match get_object E model (strip r) with
                | Some o => [o]
                | None => []
                end
       | None => []
       end) refs.

(** What is recorded for the tag markers of a list. *)
Definition tag_markers (refs : list (option string)) : list string :=
  flat_map
    (fun r =>
       match r with
       | Some r => if is_tag_marker r then [prefix 4 (strip r)] else []
       | None => []
       end) refs.




(** A request of the feed loop: a GET, with the feed timeout, of the
    template formatted with one of the language codes. *)
Definition feed_request (E : Env) (template : string) (codes : list string)
    (e : event) : Prop :=
  exists code url,
    In code codes /\ str_format E template code = Return url
    /\ e = HttpRequest GET url (Some WP_TIMEOUT).

(** Whether some [/] is directly followed by [>]. *)
Fixpoint has_self_closing (l : list ascii) : bool :=
  match l with
  | a :: (b :: _) as l' =>
      (Ascii.eqb a "/" && Ascii.eqb b ">") || has_self_closing l'
  | _ => false
  end.

(** The loop of a quantifier in [Re.m], named so that it can be reasoned
    about by induction on its bound; [body] is the matcher of the
    quantified pattern. *)
Section RepLoop.
Variable body : nat -> Re.caps -> (nat -> Re.caps -> option (nat * Re.caps))
                -> option (nat * Re.caps).
Variable g : bool.
Variable lo : nat.
Variable k : nat -> Re.caps -> option (nat * Re.caps).

Fixpoint rep_loop (fuel n i : nat) (cs : Re.caps) {struct fuel}
    : option (nat * Re.caps) :=
  match fuel with
  | O => None
  | S fuel' =>
      if g then
        match body i cs (fun j cs' =>
                if (i <? j)%nat then rep_loop fuel' (S n) j cs'
                else None) with
        | Some res => Some res
        | None => if (lo <=? n)%nat then k i cs else None
        end
      else
        match (if (lo <=? n)%nat then k i cs else None) with
        | Some res => Some res
        | None =>
            body i cs (fun j cs' =>
              if (i <? j)%nat then rep_loop fuel' (S n) j cs'
              else None)
        end
  end.
End RepLoop.

(** The references of a front-matter list as the loop sees them: nulls
    left out, the others trimmed. *)
Definition trimmed_references (refs : list (option string)) : list string :=
  flat_map (fun r => match r with Some r => [strip r] | None => [] end) refs.

(* ===================================================================== *)
(** * Sample environments                                                *)
(* ===================================================================== *)

Module Sample.

(** A remote that answers the [n]-th request with the [n]-th item of a
    script and refuses every later connection. *)
Definition script (answers : list (Response + request_exception))
    : nat -> http_method -> string -> Response + request_exception :=
  fun n _ _ => nth n answers (inr ConnectionError).

Definition ok (status : Z) (body : string) : Response + request_exception :=
  inl {| status_code := status; text := body; content := body |}.

(** [str.format] on templates whose only field is [{lang}]. *)
Definition format_lang (template code : string) : result string :=
  Return (replace "{lang}" code template).

Definition no_page : Page := {| reuses := None; datasets := None |}.

Definition env (answers : list (Response + request_exception))
    (parse : string -> Feed) (db : model -> list Obj.t) : Env :=
  {| WP_ATOM_URL := Some "https://blog.example/{lang}/feed.atom";
     DEFAULT_LANGUAGE := "en";
     PAGES_GH_REPO_NAME := Some "org/pages";
     PAGES_REPO_BRANCH := None;
     lang_code := Some "fr";
     http := script answers;
     str_format := format_lang;
     feedparser_parse := parse;
     dateutil_parse := fun s => if String.eqb s "" then None else Some 0%Z;
     frontmatter_loads := fun _ => Return no_page;
     objects := db;
     tags_match := fun q ts => forallb (fun t => bool_decide (t ∈ ts)) q |}.

Definition no_feed : string -> Feed := fun _ => {| entries := [] |}.
Definition no_db : model -> list Obj.t := fun _ => [].

Definition world (stored : gmap string string) : World :=
  {| now := 0; sent := 0; fallback := stored;
     memo_page := ∅; memo_post := ∅; trace := [] |}.

(** The remote is unreachable. *)
Definition env_down : Env := env [] no_feed no_db.

(** The page exists only without a locale and the remote is reached. *)
Definition env_404_then_ok : Env :=
  env [ ok 200 ""; ok 404 "Not Found"; ok 404 ""; ok 200 "<h1>FAQ</h1>" ]
    no_feed no_db.

(** The image fragment of the specification, closed by a bare [>] ... *)
Definition img_fragment : string :=
  "<img src=" +:+ dq +:+ "http://a/b.png" +:+ dq
  +:+ " srcset=" +:+ dq +:+ "c 1x, d 2x" +:+ dq
  +:+ " sizes=" +:+ dq +:+ "100vw" +:+ dq +:+ ">".

(** ... and the same tag self-closed, as [feedparser] writes it. *)
Definition img_fragment_closed : string :=
  "<img src=" +:+ dq +:+ "http://a/b.png" +:+ dq
  +:+ " srcset=" +:+ dq +:+ "c 1x, d 2x" +:+ dq
  +:+ " sizes=" +:+ dq +:+ "100vw" +:+ dq +:+ " />".

Definition bare_blogpost : Blogpost.t :=
  {| Blogpost.title := "t"; Blogpost.link := "l"; Blogpost.date := 0;
     Blogpost.summary := "s"; Blogpost.image_url := None;
     Blogpost.srcset := None; Blogpost.sizes := None |}.

(** An entry with a thumbnail in each of the three places. *)
Definition post_all_three : Post.t :=
  {| Post.title := "Open data day"; Post.link := "https://blog.example/1";
     Post.published := "2024-03-02T10:00:00Z";
     Post.description := Some "<p>Join us</p>";
     Post.content := Some [Some ("<p>Join us</p>" +:+ img_fragment_closed)];
     Post.summary := None;
     Post.media_thumbnail := [ {| Post.url := "https://cdn.example/t.jpg" |};
                               {| Post.url := "https://cdn.example/u.jpg" |} ];
     Post.enclosures := [ {| Post.type := Some "audio/mpeg";
                             Post.href := "https://cdn.example/a.mp3" |};
                          {| Post.type := Some "image/png";
                             Post.href := "https://cdn.example/e.png" |} ] |}.


(** ... and with the audio enclosure only. *)
Definition post_inline_only : Post.t :=
  {| Post.title := Post.title post_all_three;
     Post.link := Post.link post_all_three;
     Post.published := Post.published post_all_three;
     Post.description := Post.description post_all_three;
     Post.content := Post.content post_all_three;
     Post.summary := None;
     Post.media_thumbnail := [];
     Post.enclosures := [ {| Post.type := Some "audio/mpeg";
                             Post.href := "https://cdn.example/a.mp3" |} ] |}.

Definition feed_of (posts : list Post.t) : string -> Feed :=
  fun body => if String.eqb body "atom" then {| entries := posts |}
              else {| entries := [] |}.

(** The French feed times out, the English one has two entries. *)
Definition env_feed : Env :=
  env [ inr Timeout; ok 200 "atom" ]
    (feed_of [post_inline_only; post_all_three]) no_db.

(** The page is fetched once, then the remote goes away. *)
Definition env_ok_then_down : Env :=
  env [ ok 200 ""; ok 200 "<h1>FAQ</h1>" ] no_feed no_db.

Definition dataset (id slug : string) (tags : list string) (created : Z)
    : Obj.t :=
  {| Obj.id := id; Obj.slug := slug; Obj.tags := tags;
     Obj.created_at := created; Obj.visible := true |}.

(** Three datasets; the two tagged ones are stored oldest first. *)
Definition db (m : model) : list Obj.t :=
  match m with
  | Dataset => [ dataset "5f1a00000000000000000001" "budget" ["tag#"] 10;
                 dataset "5f1a00000000000000000002" "roads" [] 20;
                 dataset "5f1a00000000000000000003" "schools" ["tag#"] 30 ]
  | Reuse => []
  end.

Definition env_db : Env := env [] no_feed db.

(** A remote that answers, a page with both kinds of reference. *)
Definition env_page : Env :=
  {| WP_ATOM_URL := None;
     DEFAULT_LANGUAGE := "en";
     PAGES_GH_REPO_NAME := Some "org/pages";
     PAGES_REPO_BRANCH := Some "main";
     lang_code := Some "fr";
     http := script [ ok 200 ""; ok 200 "---" ];
     str_format := format_lang;
     feedparser_parse := no_feed;
     dateutil_parse := fun _ => None;
     frontmatter_loads := fun _ =>
       Return {| reuses := None;
                 datasets := Some [ Some " roads "; None; Some "tag#open";
                                    Some "5f1a00000000000000000001";
                                    Some "missing"; Some "tag#data" ] |};
     objects := db;
     tags_match := fun q ts => forallb (fun t => bool_decide (t ∈ ts)) q |}.

(** No page repository is configured. *)
Definition env_no_repo : Env :=
  {| WP_ATOM_URL := None;
     DEFAULT_LANGUAGE := "en";
     PAGES_GH_REPO_NAME := None;
     PAGES_REPO_BRANCH := None;
     lang_code := Some "fr";
     http := script [ ok 200 ""; ok 200 "<h1>FAQ</h1>" ];
     str_format := format_lang;
     feedparser_parse := no_feed;
     dateutil_parse := fun _ => None;
     frontmatter_loads := fun _ => Return no_page;
     objects := no_db;
     tags_match := fun _ _ => false |}.

(** Neither the localized page nor the unlocalized one exists. *)
Definition env_404_twice : Env :=
  env [ ok 200 ""; ok 404 ""; ok 404 ""; ok 404 "" ] no_feed no_db.

(** The remote answers the GET with an error status. *)
Definition env_503 : Env :=
  env [ ok 200 ""; ok 503 "Service Unavailable" ] no_feed no_db.

(** The page is fetched, then the next GET times out. *)
Definition env_ok_then_timeout : Env :=
  env [ ok 200 ""; ok 200 "<h1>FAQ</h1>"; ok 200 ""; inr Timeout ]
    no_feed no_db.




(** An entry with a summary of its own beside its content. *)
Definition post_with_summary : Post.t :=
  {| Post.title := "Open data day"; Post.link := "https://blog.example/1";
     Post.published := "2024-03-02T10:00:00Z";
     Post.description := None;
     Post.content := Some [Some ("<p>Join us</p>" +:+ img_fragment_closed)];
     Post.summary := Some "<p>In <b>short</b></p>";
     Post.media_thumbnail := [];
     Post.enclosures := [] |}.

End Sample.

(* ===================================================================== *)
(** * Properties                                                         *)
(* ===================================================================== *)

Ltac run_page :=
  unfold get_page_content_locale_uncached, on_request_exception,
    detect_pages_extension, requests_head, requests_get, raise_for_status,
    cache_get, cache_set, log_error, read_local, try_except_else, bind, ret,
    raise, send, emit; simpl.

Ltac run_feed :=
  unfold try_except_else, requests_get, send, log_error, lift, bind, ret,
    emit; simpl.

Ltac close_feed evs :=
  eexists _, evs; simpl; split; cycle 1;
  [ repeat (split; try reflexivity)
  | simpl; rewrite <- ?app_assoc; reflexivity ].

Lemma string_length_app (a b : string) :
  String.length (a +:+ b) = (String.length a + String.length b)%nat.
Proof. induction a as [|c a IH]; simpl; [reflexivity | now rewrite IH]. Qed.

Lemma app_grows (l s : string) : l <> "" -> l +:+ "/" +:+ s <> s.
Proof.
  intros _ H. apply (f_equal String.length) in H.
  rewrite !string_length_app in H. simpl in H. lia.
Qed.

Lemma truthy_Some (o : option string) :
  truthy o = true -> exists s, o = Some s /\ s <> "".
Proof.
  destruct o as [s|]; simpl; [|discriminate].
  intros H. exists s. split; [reflexivity|].
  intros ->. discriminate.
Qed.

Lemma truthy_false (o : option string) :
  truthy o = false -> o = None \/ o = Some "".
Proof.
  destruct o as [s|]; simpl; [|now left].
  destruct (String.eqb_spec s ""); [subst; now right | discriminate].
Qed.

(** ** ContentLocationResolver *)

(** C6 fails as stated: with a locale the raw URL gets a path segment of
    its own. *)
Lemma get_pages_gh_urls_locale_differs :
  fst (get_pages_gh_urls Sample.env_down "faq" (Some "fr") (Sample.world ∅))
  = Return ("https://raw.githubusercontent.com/org/pages/master/pages/fr/faq",
            "https://github.com/org/pages/blob/master/pages/faq")
  /\ fst (get_pages_gh_urls Sample.env_down "faq" None (Sample.world ∅))
     = Return ("https://raw.githubusercontent.com/org/pages/master/pages/faq",
               "https://github.com/org/pages/blob/master/pages/faq")
  /\ get_pages_gh_urls Sample.env_down "faq" (Some "fr") (Sample.world ∅)
     <> get_pages_gh_urls Sample.env_down "faq" None (Sample.world ∅).
Proof.
  split; [reflexivity | split; [reflexivity |]].
  intros H. vm_compute in H. discriminate H.
Qed.

(** C6, amended: for every configured repository, slug and locale, the
    browsable URL is the one built without a locale; the raw URL is the
    unlocalized one exactly when the locale is [None] or empty, and for any
    other locale it is [.../pages/{locale}/{slug}], which differs from the
    unlocalized raw URL. *)
Theorem get_pages_gh_urls_locale (E : Env) (slug : string)
    (locale : option string) (w : World) :
  truthy (PAGES_GH_REPO_NAME E) = true ->
  exists raw raw0 gh,
    get_pages_gh_urls E slug locale w = (Return (raw, gh), w)
    /\ get_pages_gh_urls E slug None w = (Return (raw0, gh), w)
    /\ (truthy locale = false -> raw = raw0)
    /\ (forall l, locale = Some l -> l <> "" ->
          raw = "https://raw.githubusercontent.com/"
                +:+ default "" (PAGES_GH_REPO_NAME E) +:+ "/"
                +:+ default "master" (PAGES_REPO_BRANCH E)
                +:+ "/pages/" +:+ l +:+ "/" +:+ slug
          /\ raw <> raw0).
Proof.
  intros Hrepo. unfold get_pages_gh_urls. rewrite Hrepo. simpl.
  destruct locale as [loc|]; simpl.
  - destruct (String.eqb_spec loc "") as [->|Hne]; simpl.
    + eexists _, _, _. split; [reflexivity|]. split; [reflexivity|].
      split; [reflexivity|].
      intros l' [= <-] Hl'. contradiction.
    + eexists _, _, _. split; [reflexivity|]. split; [reflexivity|].
      split; [discriminate|].
      intros l' [= <-] _. split; [reflexivity|].
      intros Heq. repeat (apply String.app_inj in Heq).
      revert Heq. apply app_grows. exact Hne.
  - eexists _, _, _. split; [reflexivity|]. split; [reflexivity|].
    split; [reflexivity|]. intros l' [=].
Qed.

Lemma get_pages_gh_urls_locale_witness :
  truthy (PAGES_GH_REPO_NAME Sample.env_down) = true
  /\ exists raw raw0 gh,
       get_pages_gh_urls Sample.env_down "faq" (Some "fr") (Sample.world ∅)
       = (Return (raw, gh), Sample.world ∅)
       /\ get_pages_gh_urls Sample.env_down "faq" None (Sample.world ∅)
          = (Return (raw0, gh), Sample.world ∅)
       /\ raw <> raw0.
Proof.
  split; [reflexivity|].
  destruct (get_pages_gh_urls_locale Sample.env_down "faq" (Some "fr")
              (Sample.world ∅) eq_refl)
    as (raw & raw0 & gh & H1 & H2 & _ & H4).
  exists raw, raw0, gh. repeat split; [exact H1 | exact H2 |].
  apply (H4 "fr" eq_refl). discriminate.
Defined.

(** ** PageContentFetcher *)

(** C8 fails on the extension probe: the HEAD request of
    [detect_pages_extension] is sent without any timeout, whatever the URL
    and whatever the remote answers. *)
Theorem detect_pages_extension_no_timeout (E : Env) (raw_url : string)
    (w : World) :
  trace (snd (detect_pages_extension E raw_url w))
  = trace w ++ [HttpRequest HEAD (raw_url +:+ ".md") None].
Proof.
  unfold detect_pages_extension, requests_head, send, bind, ret.
  destruct (http E (sent w) HEAD (raw_url +:+ ".md")) as [r|e]; simpl.
  - destruct (status_code r =? 200)%Z; reflexivity.
  - reflexivity.
Qed.

(** The two GET requests do carry the timeout of 5. *)
Lemma requests_get_timeout (E : Env) (url : string) (t : option Z) (w : World) :
  trace (snd (requests_get E url t w)) = trace w ++ [HttpRequest GET url t].
Proof.
  unfold requests_get, send.
  destruct (http E (sent w) GET url); reflexivity.
Qed.

(** C1 fails: when the remote cannot be reached, [get_page_content] lets
    an [UnboundLocalError] through to its caller. *)
Theorem get_page_content_raises_when_remote_down :
  fst (get_page_content Sample.env_down "faq" (Sample.world ∅))
  = Raise (UnboundLocalError "extension").
Proof. vm_compute. reflexivity. Qed.

(** C2 fails when the transport error hits the extension probe: the
    fallback tier is read for the key, but what it holds is not returned;
    the call ends in an [UnboundLocalError]. *)
Theorem fallback_lost_when_probe_fails (E : Env) (slug : string)
    (locale : option string) (w : World) (raw gh : string)
    (e : request_exception) :
  get_pages_gh_urls E slug locale w = (Return (raw, gh), w) ->
  http E (sent w) HEAD (raw +:+ ".md") = inr e ->
  exists w',
    get_page_content_locale_uncached E slug locale w
    = (Raise (UnboundLocalError "extension"), w')
    /\ fallback w' = fallback w
    /\ trace w'
       = trace w
         ++ [ HttpRequest HEAD (raw +:+ ".md") None;
              Log ("Error while getting " +:+ slug +:+ " page from gh: ")
                (Some (RequestException e));
              CacheGet (page_cache_key slug locale) ].
Proof.
  intros Hurls Hprobe. run_page. rewrite Hurls. simpl. rewrite Hprobe. simpl.
  eexists. split; [reflexivity|]. split; [reflexivity|]. simpl.
  rewrite <- !app_assoc. reflexivity.
Qed.

Lemma fallback_lost_when_probe_fails_witness :
  exists w1 w2,
    get_page_content_locale_uncached Sample.env_ok_then_down "faq" None
      (Sample.world ∅)
    = (Return (Some "<h1>FAQ</h1>",
               "https://github.com/org/pages/blob/master/pages/faq.md", "md"),
       w1)
    /\ fallback w1 !! page_cache_key "faq" None = Some "<h1>FAQ</h1>"
    /\ get_page_content_locale_uncached Sample.env_ok_then_down "faq" None w1
       = (Raise (UnboundLocalError "extension"), w2)
    /\ fallback w2 = fallback w1.
Proof.
  exists (snd (get_page_content_locale_uncached Sample.env_ok_then_down "faq"
                 None (Sample.world ∅))).
  destruct (fallback_lost_when_probe_fails Sample.env_ok_then_down "faq" None
              (snd (get_page_content_locale_uncached Sample.env_ok_then_down
                      "faq" None (Sample.world ∅)))
              "https://raw.githubusercontent.com/org/pages/master/pages/faq"
              "https://github.com/org/pages/blob/master/pages/faq"
              ConnectionError eq_refl eq_refl) as (w2 & H1 & H2 & _).
  exists w2. split; [vm_compute; reflexivity|].
  split; [vm_compute; reflexivity|].
  split; [exact H1 | exact H2].
Defined.

(** When the probe is answered, the fallback tier is read exactly on a
    failed fetch: here the GET raises. *)
Lemma fallback_read_when_get_raises (E : Env) (slug : string)
    (locale : option string) (w : World) (raw gh : string) (probe : Response)
    (e : request_exception) :
  get_pages_gh_urls E slug locale w = (Return (raw, gh), w) ->
  http E (sent w) HEAD (raw +:+ ".md") = inl probe ->
  http E (S (sent w)) GET (raw +:+ "." +:+ extension_of probe) = inr e ->
  exists w',
    get_page_content_locale_uncached E slug locale w
    = (Return (fallback w !! page_cache_key slug locale,
               gh +:+ "." +:+ extension_of probe, extension_of probe), w')
    /\ fallback w' = fallback w
    /\ trace w'
       = trace w
         ++ [ HttpRequest HEAD (raw +:+ ".md") None;
              HttpRequest GET (raw +:+ "." +:+ extension_of probe) (Some 5%Z);
              Log ("Error while getting " +:+ slug +:+ " page from gh: ")
                (Some (RequestException e));
              CacheGet (page_cache_key slug locale) ].
Proof.
  intros Hurls Hprobe Hget. unfold extension_of in *. run_page.
  rewrite Hurls. simpl. rewrite Hprobe. simpl.
  destruct (status_code probe =? 200)%Z; simpl; rewrite Hget; simpl;
    (eexists; split; [reflexivity|]; split; [reflexivity|]; simpl;
     rewrite <- !app_assoc; reflexivity).
Qed.

(** ... and here the GET is answered with an error status other than 404. *)
Lemma fallback_read_on_error_status (E : Env) (slug : string)
    (locale : option string) (w : World) (raw gh : string)
    (probe response : Response) :
  get_pages_gh_urls E slug locale w = (Return (raw, gh), w) ->
  http E (sent w) HEAD (raw +:+ ".md") = inl probe ->
  http E (S (sent w)) GET (raw +:+ "." +:+ extension_of probe) = inl response ->
  (400 <= status_code response < 600)%Z ->
  status_code response <> 404%Z ->
  exists w',
    get_page_content_locale_uncached E slug locale w
    = (Return (fallback w !! page_cache_key slug locale,
               gh +:+ "." +:+ extension_of probe, extension_of probe), w')
    /\ fallback w' = fallback w
    /\ trace w'
       = trace w
         ++ [ HttpRequest HEAD (raw +:+ ".md") None;
              HttpRequest GET (raw +:+ "." +:+ extension_of probe) (Some 5%Z);
              Log ("Error while getting " +:+ slug +:+ " page from gh: ")
                (Some (RequestException (HTTPError (status_code response))));
              CacheGet (page_cache_key slug locale) ].
Proof.
  intros Hurls Hprobe Hget Hrange Hne. unfold extension_of in *. run_page.
  rewrite Hurls. simpl. rewrite Hprobe. simpl.
  assert (H404 : (status_code response =? 404)%Z = false) by lia.
  assert (Herr : ((400 <=? status_code response)
                  && (status_code response <? 600))%Z = true) by lia.
  destruct (status_code probe =? 200)%Z; simpl; rewrite Hget; simpl;
    rewrite H404, Herr; simpl;
    (eexists; split; [reflexivity|]; split; [reflexivity|]; simpl;
     rewrite <- !app_assoc; reflexivity).
Qed.

(** On a successful fetch the body is written to the fallback tier, which
    is not read. *)
Lemma fallback_written_on_success (E : Env) (slug : string)
    (locale : option string) (w : World) (raw gh : string)
    (probe response : Response) :
  get_pages_gh_urls E slug locale w = (Return (raw, gh), w) ->
  http E (sent w) HEAD (raw +:+ ".md") = inl probe ->
  http E (S (sent w)) GET (raw +:+ "." +:+ extension_of probe) = inl response ->
  (status_code response < 400 \/ 600 <= status_code response)%Z ->
  exists w',
    get_page_content_locale_uncached E slug locale w
    = (Return (Some (text response),
               gh +:+ "." +:+ extension_of probe, extension_of probe), w')
    /\ fallback w' = <[page_cache_key slug locale := text response]> (fallback w)
    /\ trace w'
       = trace w
         ++ [ HttpRequest HEAD (raw +:+ ".md") None;
              HttpRequest GET (raw +:+ "." +:+ extension_of probe) (Some 5%Z);
              CacheSet (page_cache_key slug locale) (text response) ]
    /\ sent w' = S (S (sent w)).
Proof.
  intros Hurls Hprobe Hget Hrange. unfold extension_of in *. run_page.
  rewrite Hurls. simpl. rewrite Hprobe. simpl.
  assert (H404 : (status_code response =? 404)%Z = false) by lia.
  assert (Herr : ((400 <=? status_code response)
                  && (status_code response <? 600))%Z = false) by lia.
  destruct (status_code probe =? 200)%Z; simpl; rewrite Hget; simpl;
    rewrite H404, Herr; simpl;
    (eexists; split; [reflexivity|]; split; [reflexivity|]; simpl;
     split; [rewrite <- !app_assoc; reflexivity | reflexivity]).
Qed.

Lemma get_pages_gh_urls_any_world (E : Env) (slug : string)
    (locale : option string) (w w' : World) (urls : string * string) :
  get_pages_gh_urls E slug locale w = (Return urls, w) ->
  get_pages_gh_urls E slug locale w' = (Return urls, w').
Proof.
  unfold get_pages_gh_urls, abort, raise, ret.
  destruct (negb (truthy (PAGES_GH_REPO_NAME E))); [discriminate|].
  destruct (truthy locale); intros [= <-]; reflexivity.
Qed.


(** An authoritative 404: no content, and the fallback tier is neither
    read nor written. *)
Lemma not_found_skips_fallback (E : Env) (slug : string)
    (locale : option string) (w : World) (raw gh : string)
    (probe response : Response) :
  get_pages_gh_urls E slug locale w = (Return (raw, gh), w) ->
  http E (sent w) HEAD (raw +:+ ".md") = inl probe ->
  http E (S (sent w)) GET (raw +:+ "." +:+ extension_of probe) = inl response ->
  status_code response = 404%Z ->
  exists w',
    get_page_content_locale_uncached E slug locale w
    = (Return (None, gh +:+ "." +:+ extension_of probe, extension_of probe), w')
    /\ fallback w' = fallback w
    /\ now w' = now w
    /\ memo_page w' = memo_page w
    /\ trace w'
       = trace w
         ++ [ HttpRequest HEAD (raw +:+ ".md") None;
              HttpRequest GET (raw +:+ "." +:+ extension_of probe) (Some 5%Z) ].
Proof.
  intros Hurls Hprobe Hget H404. unfold extension_of in *. run_page.
  rewrite Hurls. simpl. rewrite Hprobe. simpl.
  destruct (status_code probe =? 200)%Z; simpl; rewrite Hget; simpl;
    rewrite H404; simpl;
    (eexists; split; [reflexivity|]; repeat (split; [reflexivity|]); simpl;
     rewrite <- !app_assoc; reflexivity).
Qed.

(** C7: when the fetch for the request's locale is answered 404,
    [get_page_content_locale] returns no content without reading or
    writing the fallback tier, and [get_page_content] goes on to the
    unlocalized variant; only that one's outcome decides between the page
    and the not-found outcome. *)
Theorem not_found_falls_through_to_unlocalized (E : Env) (slug : string)
    (w : World) (raw gh : string) (probe response : Response) :
  memo_page w !! (slug, lang_code E) = None ->
  get_pages_gh_urls E slug (lang_code E) w = (Return (raw, gh), w) ->
  http E (sent w) HEAD (raw +:+ ".md") = inl probe ->
  http E (S (sent w)) GET (raw +:+ "." +:+ extension_of probe) = inl response ->
  status_code response = 404%Z ->
  exists w1,
    get_page_content_locale E slug (lang_code E) w
    = (Return (None, gh +:+ "." +:+ extension_of probe, extension_of probe), w1)
    /\ fallback w1 = fallback w
    /\ trace w1
       = trace w
         ++ [ HttpRequest HEAD (raw +:+ ".md") None;
              HttpRequest GET (raw +:+ "." +:+ extension_of probe) (Some 5%Z) ]
    /\ get_page_content E slug w
       = match get_page_content_locale E slug None w1 with
         | (Return r, w2) =>
             if truthy (fst (fst r)) then (Return r, w2)
             else (Raise (HTTPException 404),
                   emit (Log ("No content found inc. from cache for page "
                              +:+ slug) None) w2)
         | (Raise e, w2) => (Raise e, w2)
         end.
Proof.
  intros Hmiss Hurls Hprobe Hget H404.
  destruct (not_found_skips_fallback E slug (lang_code E) w raw gh probe
              response Hurls Hprobe Hget H404)
    as (w' & Hrun & Hfb & Hnow & Hmemo & Htrace).
  assert (Hloc : exists w1,
             get_page_content_locale E slug (lang_code E) w
             = (Return (None, gh +:+ "." +:+ extension_of probe,
                        extension_of probe), w1)
             /\ fallback w1 = fallback w /\ trace w1 = trace w').
  { unfold get_page_content_locale, memoize_page. rewrite Hmiss, Hrun.
    eexists. split; [reflexivity|]. split; [exact Hfb | reflexivity]. }
  destruct Hloc as (w1 & Hloc & Hfb1 & Htr1).
  exists w1. split; [exact Hloc|]. split; [exact Hfb1|].
  split; [now rewrite Htr1|].
  unfold get_page_content. simpl. unfold bind at 1. rewrite Hloc. simpl.
  unfold bind at 1.
  destruct (get_page_content_locale E slug None w1) as [[r|e] w2];
    [|reflexivity].
  destruct (truthy (fst (fst r))); reflexivity.
Qed.

Lemma not_found_falls_through_to_unlocalized_witness :
  exists w1 : World,
    get_page_content_locale Sample.env_404_then_ok "faq" (Some "fr")
      (Sample.world ∅)
    = (Return (None,
               "https://github.com/org/pages/blob/master/pages/faq.md", "md"),
       w1)
    /\ fallback w1 = ∅
    /\ fst (get_page_content Sample.env_404_then_ok "faq" (Sample.world ∅))
       = Return (Some "<h1>FAQ</h1>",
                 "https://github.com/org/pages/blob/master/pages/faq.html",
                 "html").
Proof.
  destruct (not_found_falls_through_to_unlocalized Sample.env_404_then_ok
              "faq" (Sample.world ∅)
              "https://raw.githubusercontent.com/org/pages/master/pages/fr/faq"
              "https://github.com/org/pages/blob/master/pages/faq"
              {| status_code := 200; text := ""; content := "" |}
              {| status_code := 404; text := "Not Found";
                 content := "Not Found" |}
              eq_refl eq_refl eq_refl eq_refl eq_refl)
    as (w1 & H1 & H2 & H3 & H4).
  exists w1. split; [exact H1|]. split; [exact H2|].
  rewrite H4.
  assert (Hw1 : w1 = snd (get_page_content_locale Sample.env_404_then_ok "faq"
                            (Some "fr") (Sample.world ∅)))
    by exact (eq_sym (f_equal snd H1)).
  rewrite Hw1. vm_compute. reflexivity.
Defined.

(** ** FeedSummaryExtractor *)

(** C4: with a feed URL configured, the URL for the preferred language is
    requested first; the URL for the default language is requested exactly
    when that attempt failed or parsed to no entry; the result is the
    summary of the first entry of the first attempt that has one, and none,
    without an exception, when neither has. *)
Theorem get_blog_post_language_fallback (E : Env) (lang tpl u1 u2 : string)
    (w : World) :
  WP_ATOM_URL E = Some tpl ->
  tpl <> "" ->
  str_format E tpl lang = Return u1 ->
  str_format E tpl (DEFAULT_LANGUAGE E) = Return u2 ->
  exists w' evs,
    trace w' = trace w ++ evs
    /\ match first_entry E (http E (sent w) GET u1) with
       | Some post =>
           get_blog_post_uncached E lang w = (rmap Some (summarize E post), w')
           /\ http_requests evs = [HttpRequest GET u1 (Some 5%Z)]
       | None =>
           http_requests evs = [ HttpRequest GET u1 (Some 5%Z);
                                 HttpRequest GET u2 (Some 5%Z) ]
           /\ match first_entry E (http E (S (sent w)) GET u2) with
              | Some post =>
                  get_blog_post_uncached E lang w
                  = (rmap Some (summarize E post), w')
              | None => get_blog_post_uncached E lang w = (Return None, w')
              end
       end.
Proof.
  intros Hcfg Hne Hf1 Hf2. unfold get_blog_post_uncached. rewrite Hcfg.
  assert (Ht : truthy (Some tpl) = true).
  { simpl. destruct (String.eqb_spec tpl ""); [contradiction | reflexivity]. }
  rewrite Ht. simpl default. unfold bind at 1. simpl fetch_feed.
  unfold bind at 1. unfold lift at 1. rewrite Hf1.
  unfold first_entry.
  destruct (http E (sent w) GET u1) as [r1|e1] eqn:H1.
  - (* the first request is answered *)
    destruct (entries (feedparser_parse E (content r1))) as [|post rest] eqn:He1.
    + (* ... with an empty feed *)
      run_feed. rewrite H1, He1. simpl. rewrite Hf2. simpl.
      destruct (http E (S (sent w)) GET u2) as [r2|e2] eqn:H2; simpl.
      * destruct (entries (feedparser_parse E (content r2)))
          as [|post2 rest2] eqn:He2; simpl; rewrite He2.
        -- close_feed [HttpRequest GET u1 (Some 5%Z); HttpRequest GET u2 (Some 5%Z)].
        -- destruct (summarize E post2);
             close_feed [HttpRequest GET u1 (Some 5%Z);
                         HttpRequest GET u2 (Some 5%Z)].
      * rewrite He1.
        close_feed [HttpRequest GET u1 (Some 5%Z); HttpRequest GET u2 (Some 5%Z);
                    Log ((if is_Timeout (RequestException e2)
                          then "Timeout while fetching "
                          else "Error while fetching ") +:+ u2)
                      (Some (RequestException e2))].
    + (* ... with a feed that has an entry *)
      run_feed. rewrite H1, He1. simpl. rewrite He1.
      destruct (summarize E post);
        close_feed [HttpRequest GET u1 (Some 5%Z)].
  - (* the first request fails *)
    run_feed. rewrite H1. simpl. rewrite Hf2. simpl.
    destruct (http E (S (sent w)) GET u2) as [r2|e2] eqn:H2; simpl.
    + destruct (entries (feedparser_parse E (content r2)))
        as [|post2 rest2] eqn:He2; simpl; rewrite He2.
      * close_feed [HttpRequest GET u1 (Some 5%Z);
                    Log ((if is_Timeout (RequestException e1)
                          then "Timeout while fetching "
                          else "Error while fetching ") +:+ u1)
                      (Some (RequestException e1));
                    HttpRequest GET u2 (Some 5%Z)].
      * destruct (summarize E post2);
          close_feed [HttpRequest GET u1 (Some 5%Z);
                      Log ((if is_Timeout (RequestException e1)
                            then "Timeout while fetching "
                            else "Error while fetching ") +:+ u1)
                        (Some (RequestException e1));
                      HttpRequest GET u2 (Some 5%Z)].
    + close_feed [HttpRequest GET u1 (Some 5%Z);
                  Log ((if is_Timeout (RequestException e1)
                        then "Timeout while fetching "
                        else "Error while fetching ") +:+ u1)
                    (Some (RequestException e1));
                  HttpRequest GET u2 (Some 5%Z);
                  Log ((if is_Timeout (RequestException e2)
                        then "Timeout while fetching "
                        else "Error while fetching ") +:+ u2)
                    (Some (RequestException e2))].
Qed.

Lemma get_blog_post_language_fallback_witness :
  exists w',
    get_blog_post_uncached Sample.env_feed "fr" (Sample.world ∅)
    = (rmap Some (summarize Sample.env_feed Sample.post_inline_only), w')
    /\ http_requests (trace w')
       = [ HttpRequest GET "https://blog.example/fr/feed.atom" (Some 5%Z);
           HttpRequest GET "https://blog.example/en/feed.atom" (Some 5%Z) ].
Proof.
  destruct (get_blog_post_language_fallback Sample.env_feed "fr"
              "https://blog.example/{lang}/feed.atom"
              "https://blog.example/fr/feed.atom"
              "https://blog.example/en/feed.atom" (Sample.world ∅)
              eq_refl ltac:(discriminate) eq_refl eq_refl)
    as (w' & evs & Htrace & Hreq & Hrun).
  exists w'. split; [exact Hrun|].
  rewrite Htrace. exact Hreq.
Defined.

(** ** ThumbnailResolver *)

Lemma accepted_enclosure_mime (enclosure : Post.enclosure) :
  accepted_enclosure enclosure = true
  <-> Post.type enclosure = Some "image/jpeg"
      \/ Post.type enclosure = Some "image/png"
      \/ Post.type enclosure = Some "image/webp".
Proof.
  unfold accepted_enclosure, FEED_THUMBNAIL_MIMES.
  destruct (Post.type enclosure) as [t|]; simpl.
  - destruct (String.eqb_spec t "image/jpeg") as [->|H1]; simpl.
    { split; auto. }
    destruct (String.eqb_spec t "image/png") as [->|H2]; simpl.
    { split; auto. }
    destruct (String.eqb_spec t "image/webp") as [->|H3]; simpl.
    { split; auto. }
    split; [discriminate|]. intros [[=]|[[=]|[=]]]; congruence.
  - split; [discriminate|]. intros [[=]|[[=]|[=]]].
Qed.





(** [get_blog_post] returns what [summarize] makes of some entry. *)
Lemma get_blog_post_returns_a_summary (E : Env) (lang : string) (w w' : World)
    (blogpost : Blogpost.t) :
  get_blog_post_uncached E lang w = (Return (Some blogpost), w') ->
  exists post, summarize E post = Return blogpost.
Proof.
  unfold get_blog_post_uncached.
  destruct (truthy (WP_ATOM_URL E)); [|discriminate].
  unfold bind at 1.
  destruct (fetch_feed E _ _ None w) as [[[feed|]|e] w1]; try discriminate.
  destruct (entries feed) as [|post rest]; [discriminate|].
  unfold bind, lift, ret. intros H. exists post.
  destruct (summarize E post) as [b|e]; [|discriminate].
  now inversion H.
Qed.

Lemma thumbnail_from_content_keeps_image (content : option string)
    (blogpost : Blogpost.t) (v : string) :
  Blogpost.image_url blogpost = Some v ->
  thumbnail_from_content content blogpost = Return blogpost.
Proof. intros H. unfold thumbnail_from_content. now rewrite H. Qed.

Lemma summarize_responsive_fields (E : Env) (post : Post.t)
    (blogpost : Blogpost.t) :
  summarize E post = Return blogpost ->
  Blogpost.srcset blogpost <> None \/ Blogpost.sizes blogpost <> None ->
  exists html mt src,
    Post.media_thumbnail post = []
    /\ List.find accepted_enclosure (Post.enclosures post) = None
    /\ post_content post = Return (Some html)
    /\ Re.search RE_POST_IMG_flags RE_POST_IMG html = Some mt
    /\ Re.group "src" mt = Some src
    /\ Blogpost.image_url blogpost = Some (replace "&amp;" "&" src).
Proof.
  unfold summarize.
  destruct (dateutil_parse E (Post.published post)) as [date|]; simpl;
    [|discriminate].
  destruct (post_content post) as [content|e] eqn:Hcontent; simpl;
    [|discriminate].
  destruct (strip_tags (post_summary post content)) as [summary|e]; simpl;
    [|discriminate].
  unfold thumbnail_from_media.
  destruct (Post.media_thumbnail post) as [|thumbnail others] eqn:Hmedia.
  - unfold thumbnail_from_enclosures. simpl.
    destruct (List.find accepted_enclosure (Post.enclosures post))
      as [enclosure|] eqn:Hfind.
    + (* enclosure tier *)
      unfold thumbnail_from_content. simpl. intros [= <-] [H|H];
        simpl in H; contradiction.
    + (* content tier *)
      unfold thumbnail_from_content. simpl.
      destruct content as [html|]; [|discriminate].
      destruct (Re.search RE_POST_IMG_flags RE_POST_IMG html) as [mt|] eqn:Hm.
      * destruct (Re.group "src" mt) as [src|] eqn:Hsrc; [|discriminate].
        intros [= <-] _. exists html, mt, src.
        do 5 (split; [assumption || reflexivity|]).
        destruct (Re.group "srcset" mt) as [v1|];
          destruct (Re.group "sizes" mt) as [v2|];
          try destruct (negb (v1 =? "")); try destruct (negb (v2 =? ""));
          reflexivity.
      * intros [= <-] [H|H]; simpl in H; contradiction.
  - (* media tier *)
    unfold thumbnail_from_enclosures, thumbnail_from_content. simpl.
    intros [= <-] [H|H]; simpl in H; contradiction.
Qed.

(** C10: a summary that carries [srcset] or [sizes] was made from an entry
    with no media thumbnail and no accepted enclosure, and its [image_url]
    is the [src] of the image tag found in the entry's content. *)
Theorem responsive_fields_only_from_content (E : Env) (lang : string)
    (w w' : World) (blogpost : Blogpost.t) :
  get_blog_post_uncached E lang w = (Return (Some blogpost), w') ->
  Blogpost.srcset blogpost <> None \/ Blogpost.sizes blogpost <> None ->
  exists post html mt src,
    summarize E post = Return blogpost
    /\ Post.media_thumbnail post = []
    /\ List.find accepted_enclosure (Post.enclosures post) = None
    /\ post_content post = Return (Some html)
    /\ Re.search RE_POST_IMG_flags RE_POST_IMG html = Some mt
    /\ Re.group "src" mt = Some src
    /\ Blogpost.image_url blogpost = Some (replace "&amp;" "&" src).
Proof.
  intros Hrun Hresp.
  destruct (get_blog_post_returns_a_summary E lang w w' blogpost Hrun)
    as (post & Hsum).
  destruct (summarize_responsive_fields E post blogpost Hsum Hresp)
    as (html & mt & src & H).
  exists post, html, mt, src. split; [exact Hsum | exact H].
Qed.

Lemma responsive_fields_only_from_content_witness :
  exists w' blogpost,
    get_blog_post_uncached Sample.env_feed "fr" (Sample.world ∅)
    = (Return (Some blogpost), w')
    /\ Blogpost.srcset blogpost = Some "c 1x, d 2x"
    /\ Blogpost.sizes blogpost = Some "100vw"
    /\ exists post html mt src,
         summarize Sample.env_feed post = Return blogpost
         /\ Post.media_thumbnail post = []
         /\ List.find accepted_enclosure (Post.enclosures post) = None
         /\ post_content post = Return (Some html)
         /\ Re.search RE_POST_IMG_flags RE_POST_IMG html = Some mt
         /\ Re.group "src" mt = Some src
         /\ Blogpost.image_url blogpost = Some (replace "&amp;" "&" src).
Proof.
  eexists _, _. split; [vm_compute; reflexivity|].
  split; [reflexivity|]. split; [reflexivity|].
  eapply (responsive_fields_only_from_content Sample.env_feed "fr"
            (Sample.world ∅)).
  - vm_compute. reflexivity.
  - left. discriminate.
Defined.

(** ** HtmlFragmentSanitizer *)

(** The specification's example for the tag stripper. *)
Example strip_tags_hello :
  strip_tags (Some "<p>Hello <img src='x'/>world</p>") = Return "Hello world".
Proof. vm_compute. reflexivity. Qed.

(** The search starts at the first [<img] from which the pattern can be
    completed, letters in any case, attributes in any order. *)
Example search_mixed_case_any_order :
  (fun mt => (Re.span mt, Re.group "src" mt, Re.group "srcset" mt,
              Re.group "sizes" mt))
    <$> Re.search RE_POST_IMG_flags RE_POST_IMG
          ("<p>x</p><IMG alt=" +:+ dq +:+ "q" +:+ dq +:+ " sizes=" +:+ dq
           +:+ "100vw" +:+ dq +:+ " src=" +:+ dq
           +:+ "https://a/b.png?x=1&amp;y=2" +:+ dq +:+ "/><img src=" +:+ dq
           +:+ "http://z" +:+ dq +:+ "/>")
  = Some ((8, 70)%nat, Some "https://a/b.png?x=1&amp;y=2", None, Some "100vw").
Proof. vm_compute. reflexivity. Qed.

(** A tag with [srcset] alone matches, and its [src] group is unset. *)
Example search_without_src :
  (fun mt => (Re.span mt, Re.group "src" mt, Re.group "srcset" mt))
    <$> Re.search RE_POST_IMG_flags RE_POST_IMG
          ("<img srcset=" +:+ dq +:+ "x 1x" +:+ dq +:+ " />")
  = Some ((0, 21)%nat, None, Some "x 1x").
Proof. vm_compute. reflexivity. Qed.

(** On such a tag the summary is not produced: reading [src] fails. *)
Example thumbnail_from_content_without_src :
  thumbnail_from_content
    (Some ("<img srcset=" +:+ dq +:+ "x 1x" +:+ dq +:+ " />"))
    Sample.bare_blogpost
  = Raise AttributeError.
Proof. vm_compute. reflexivity. Qed.

(** C5 fails as stated: the pattern ends with [/>], which the fragment
    does not contain, so nothing is extracted from it. *)
Lemma img_fragment_not_matched :
  Re.search RE_POST_IMG_flags RE_POST_IMG Sample.img_fragment = None
  /\ thumbnail_from_content (Some Sample.img_fragment) Sample.bare_blogpost
     = Return Sample.bare_blogpost
  /\ thumbnail_from_content (Some Sample.img_fragment) Sample.bare_blogpost
     <> Return
          (Blogpost.set_sizes "100vw"
             (Blogpost.set_srcset "c 1x, d 2x"
                (Blogpost.set_image_url "http://a/b.png"
                   Sample.bare_blogpost))).
Proof.
  split; [vm_compute; reflexivity|].
  split; [vm_compute; reflexivity|].
  intros H. vm_compute in H. discriminate H.
Qed.

(** C5, amended: from the same image tag written self-closed,
    [<img src="http://a/b.png" srcset="c 1x, d 2x" sizes="100vw" />], the
    three attributes are extracted as stated, into any summary that has no
    image yet; from the fragment closed by a bare [>] nothing is. *)
Theorem img_fragment_closed_extracted (blogpost : Blogpost.t) :
  Blogpost.image_url blogpost = None ->
  thumbnail_from_content (Some Sample.img_fragment_closed) blogpost
  = Return
      (Blogpost.set_sizes "100vw"
         (Blogpost.set_srcset "c 1x, d 2x"
            (Blogpost.set_image_url "http://a/b.png" blogpost)))
  /\ thumbnail_from_content (Some Sample.img_fragment) blogpost
     = Return blogpost.
Proof.
  intros Hnone. unfold thumbnail_from_content. rewrite Hnone.
  assert (Hm : exists mt,
             Re.search RE_POST_IMG_flags RE_POST_IMG Sample.img_fragment_closed
             = Some mt
             /\ Re.group "src" mt = Some "http://a/b.png"
             /\ Re.group "srcset" mt = Some "c 1x, d 2x"
             /\ Re.group "sizes" mt = Some "100vw").
  { eexists. split; [vm_compute; reflexivity|].
    repeat split; vm_compute; reflexivity. }
  destruct Hm as (mt & -> & -> & -> & ->).
  assert (Hn : Re.search RE_POST_IMG_flags RE_POST_IMG Sample.img_fragment
               = None) by (vm_compute; reflexivity).
  rewrite Hn. split; reflexivity.
Qed.

Lemma img_fragment_closed_extracted_witness :
  thumbnail_from_content (Some Sample.img_fragment_closed) Sample.bare_blogpost
  = Return
      (Blogpost.set_sizes "100vw"
         (Blogpost.set_srcset "c 1x, d 2x"
            (Blogpost.set_image_url "http://a/b.png" Sample.bare_blogpost))).
Proof.
  exact (proj1 (img_fragment_closed_extracted Sample.bare_blogpost eq_refl)).
Defined.

(** ** TaggedResourceResolver *)

Lemma collect_direct_then_markers (E : Env) (model : model)
    (refs : list (option string)) (data : list Obj.t) (tags : list string) :
  collect E model refs data tags
  = (data ++ direct_objects E model refs, tags ++ tag_markers refs).
Proof.
  revert data tags.
  induction refs as [|[r|] refs IH]; intros data tags; simpl.
  - now rewrite !app_nil_r.
  - unfold is_tag_marker.
    destruct (String.eqb (prefix 4 (strip r)) "tag#").
    + rewrite IH. simpl. now rewrite <- app_assoc.
    + destruct (get_object E model (strip r)) as [res|]; rewrite IH; simpl.
      * now rewrite <- app_assoc.
      * reflexivity.
  - apply IH.
Qed.



Lemma get_objects_from_tags_members (E : Env) (model : model)
    (tags : list string) (o : Obj.t) :
  In o (get_objects_from_tags E model tags)
  <-> In o (objects E model) /\ Obj.visible o = true
      /\ tags_match E tags (Obj.tags o) = true.
Proof.
  unfold get_objects_from_tags. split.
  - intros H.
    apply (Permutation_in _ (Permutation_sym (OrderBy.Permuted_sort _))) in H.
    apply filter_In in H as [H Hm]. apply filter_In in H as [H Hv]. auto.
  - intros (H & Hv & Hm).
    apply (Permutation_in _ (OrderBy.Permuted_sort _)).
    apply filter_In. split; [|exact Hm]. apply filter_In. auto.
Qed.


(** [show_page] hands these lists to the template unchanged. *)
Lemma show_page_lists (E : Env) (slug : string) (w w' : World)
    (args : Render.t) :
  show_page E slug w = (Return args, w') ->
  Render.reuses args = resolve E Reuse (reuses (Render.page args))
  /\ Render.datasets args = resolve E Dataset (datasets (Render.page args)).
Proof.
  unfold show_page, bind, lift, ret.
  destruct (get_page_content E slug w) as [[[[content gh] ext]|e] w1];
    [|discriminate].
  destruct content as [c|]; [|discriminate].
  destruct (frontmatter_loads E c) as [page|e]; [|discriminate].
  intros [= <- _]. split; reflexivity.
Qed.

(** A page listing [roads], a null, two tag markers, the identifier of
    [budget] and an unknown slug: [roads] and [budget] come first, in that
    order, then the tagged [schools] and [budget], newest first; [budget]
    is there twice. *)
Example show_page_datasets :
  (fun args => (map Obj.slug (Render.datasets args), Render.reuses args))
    <$> (match fst (show_page Sample.env_page "faq" (Sample.world ∅)) with
         | Return args => Some args
         | Raise _ => None
         end)
  = Some (["roads"; "budget"; "schools"; "budget"], []).
Proof. vm_compute. reflexivity. Qed.

(* ===================================================================== *)
(** * Further properties of the page fetcher                             *)
(* ===================================================================== *)

(** Every path of [get_page_content_locale_uncached], one goal each. *)
Ltac page_paths E :=
  run_page; unfold get_pages_gh_urls, abort, raise, ret; simpl;
  repeat match goal with
         | |- context [negb (truthy (PAGES_GH_REPO_NAME E))] =>
             destruct (truthy (PAGES_GH_REPO_NAME E)) eqn:?; simpl
         | |- context [if truthy ?l then _ else _] =>
             destruct (truthy l); simpl
         | |- context [http E ?n ?m ?u] =>
             destruct (http E n m u); simpl
         | |- context [(status_code ?p =? ?k)%Z] =>
             destruct (status_code p =? k)%Z; simpl
         | |- context [((400 <=? status_code ?p) && ?c)%Z] =>
             destruct ((400 <=? status_code p) && c)%Z; simpl
         end.

(** The fallback tier changes only by storing the body of a fetch that
    succeeded; a failed or not-found fetch never overwrites it, and no
    fetch touches the clock or the memoized entries. *)
Theorem fallback_written_only_on_success (E : Env) (slug : string)
    (locale : option string) (w : World) :
  let run := get_page_content_locale_uncached E slug locale w in
  now (snd run) = now w
  /\ memo_page (snd run) = memo_page w
  /\ memo_post (snd run) = memo_post w
  /\ (fallback (snd run) = fallback w
      \/ exists body gh_url extension,
           fst run = Return (Some body, gh_url, extension)
           /\ fallback (snd run)
              = <[page_cache_key slug locale := body]> (fallback w)).
Proof.
  intros run. subst run. page_paths E;
    repeat (split; [reflexivity|]);
    first [ left; reflexivity
          | right; eexists _, _, _; split; reflexivity ].
Qed.

(** Whatever a fetch returns, its extension is [md] or [html] and its
    browsable URL is the repository's [pages/{slug}] with that extension:
    the locale never shows in it. *)
Theorem page_result_shape (E : Env) (slug : string) (locale : option string)
    (w w' : World) (content : option string) (gh_url extension : string) :
  get_page_content_locale_uncached E slug locale w
  = (Return (content, gh_url, extension), w') ->
  (extension = "md" \/ extension = "html")
  /\ gh_url
     = ("https://github.com/" +:+ default "" (PAGES_GH_REPO_NAME E)
        +:+ "/blob/" +:+ default "master" (PAGES_REPO_BRANCH E)
        +:+ "/pages/" +:+ slug) +:+ "." +:+ extension
  /\ truthy (PAGES_GH_REPO_NAME E) = true.
Proof.
  page_paths E; intros [= <- <- <- <-] || intros [=];
    (split; [auto | split; reflexivity]).
Qed.

Lemma page_result_shape_witness :
  exists w',
    get_page_content_locale_uncached Sample.env_ok_then_down "faq" (Some "fr")
      (Sample.world ∅)
    = (Return (Some "<h1>FAQ</h1>",
               "https://github.com/org/pages/blob/master/pages/faq.md", "md"),
       w')
    /\ truthy (PAGES_GH_REPO_NAME Sample.env_ok_then_down) = true.
Proof.
  eexists. split; [vm_compute; reflexivity|].
  eapply (page_result_shape Sample.env_ok_then_down "faq" (Some "fr")
            (Sample.world ∅)).
  vm_compute. reflexivity.
Defined.


(** Without a configured repository no page can be served: the fetch is
    a 404 before any request is sent or any cache is looked at, whatever
    the fallback tier holds. *)
Theorem page_fetch_without_repository (E : Env) (slug : string) (w : World) :
  truthy (PAGES_GH_REPO_NAME E) = false ->
  memo_page w !! (slug, lang_code E) = None ->
  (forall locale,
      get_page_content_locale_uncached E slug locale w
      = (Raise (HTTPException 404), w))
  /\ get_page_content E slug w = (Raise (HTTPException 404), w).
Proof.
  intros Hrepo Hmiss.
  assert (Hu : forall locale,
             get_page_content_locale_uncached E slug locale w
             = (Raise (HTTPException 404), w)).
  { intros locale.
    unfold get_page_content_locale_uncached, get_pages_gh_urls, abort, raise,
      bind. now rewrite Hrepo. }
  split; [exact Hu|].
  unfold get_page_content. simpl. unfold bind at 1.
  unfold get_page_content_locale, memoize_page. now rewrite Hmiss, Hu.
Qed.

Lemma page_fetch_without_repository_witness :
  get_page_content Sample.env_no_repo "faq"
    (Sample.world {[ "pages-content-faq-fr" := "<h1>FAQ</h1>" ]})
  = (Raise (HTTPException 404),
     Sample.world {[ "pages-content-faq-fr" := "<h1>FAQ</h1>" ]}).
Proof.
  exact (proj2 (page_fetch_without_repository Sample.env_no_repo "faq"
                  (Sample.world {[ "pages-content-faq-fr" := "<h1>FAQ</h1>" ]})
                  eq_refl eq_refl)).
Defined.

(** [get_page_content] never returns a page without text: what it returns
    has a non-empty content, from whichever tier it came. *)
Theorem get_page_content_never_empty (E : Env) (slug : string) (w w' : World)
    (content : option string) (gh_url extension : string) :
  get_page_content E slug w = (Return (content, gh_url, extension), w') ->
  exists body, content = Some body /\ body <> "".
Proof.
  unfold get_page_content. simpl. unfold bind, ret, abort, raise, log_error.
  destruct (get_page_content_locale E slug (lang_code E) w)
    as [[[[c1 g1] x1]|e1] w1]; [|discriminate]. simpl.
  destruct (truthy c1) eqn:H1.
  - intros [= <- <- <- <-]. now apply truthy_Some.
  - destruct (get_page_content_locale E slug None w1)
      as [[[[c2 g2] x2]|e2] w2]; [|discriminate]. simpl.
    destruct (truthy c2) eqn:H2; [|discriminate].
    intros [= <- <- <- <-]. now apply truthy_Some.
Qed.

Lemma get_page_content_never_empty_witness :
  exists w',
    get_page_content Sample.env_404_then_ok "faq" (Sample.world ∅)
    = (Return (Some "<h1>FAQ</h1>",
               "https://github.com/org/pages/blob/master/pages/faq.html",
               "html"), w')
    /\ exists body, Some "<h1>FAQ</h1>" = Some body /\ body <> "".
Proof.
  eexists. split; [vm_compute; reflexivity|].
  eapply (get_page_content_never_empty Sample.env_404_then_ok "faq"
            (Sample.world ∅)).
  vm_compute. reflexivity.
Defined.

(** The fresh tier: once [get_page_content_locale] has returned a value,
    calling it again before the clock moves returns the same value and
    changes nothing, so no request is sent; this holds for a not-found
    result as for a page. *)
Theorem get_page_content_locale_memoized (E : Env) (slug : string)
    (locale : option string) (w w1 : World) (r : PageResult) :
  get_page_content_locale E slug locale w = (Return r, w1) ->
  get_page_content_locale E slug locale w1 = (Return r, w1).
Proof.
  unfold get_page_content_locale, memoize_page, PAGE_CACHE_DURATION.
  destruct (memo_page w !! (slug, locale)) as [[expires rv]|] eqn:Hm.
  - destruct (now w <? expires)%Z eqn:Hfresh.
    + intros [= <- <-]. now rewrite Hm, Hfresh.
    + destruct (get_page_content_locale_uncached E slug locale w)
        as [[rv'|e] w']; [|discriminate].
      intros [= <- <-]. simpl. rewrite lookup_insert_eq.
      assert (Hlt : (now w' <? now w' + 60 * 5)%Z = true) by lia.
      now rewrite Hlt.
  - destruct (get_page_content_locale_uncached E slug locale w)
      as [[rv'|e] w']; [|discriminate].
    intros [= <- <-]. simpl. rewrite lookup_insert_eq.
    assert (Hlt : (now w' <? now w' + 60 * 5)%Z = true) by lia.
    now rewrite Hlt.
Qed.

Lemma get_page_content_locale_memoized_witness :
  exists w1,
    get_page_content_locale Sample.env_404_twice "faq" (Some "fr")
      (Sample.world ∅)
    = (Return (None,
               "https://github.com/org/pages/blob/master/pages/faq.md", "md"),
       w1)
    /\ get_page_content_locale Sample.env_404_twice "faq" (Some "fr") w1
       = (Return (None,
                  "https://github.com/org/pages/blob/master/pages/faq.md",
                  "md"), w1).
Proof.
  eexists. split; [vm_compute; reflexivity|].
  apply (get_page_content_locale_memoized Sample.env_404_twice "faq"
           (Some "fr") (Sample.world ∅)).
  vm_compute. reflexivity.
Defined.

Lemma memoize_page_miss (ttl : Z) (key : string * option string)
    (f : M PageResult) (w w' : World) (r : PageResult) :
  memo_page w !! key = None ->
  f w = (Return r, w') ->
  exists w1,
    memoize_page ttl key f w = (Return r, w1)
    /\ sent w1 = sent w'
    /\ fallback w1 = fallback w'
    /\ memo_page w1 = <[key := ((now w' + ttl)%Z, r)]> (memo_page w')
    /\ trace w1 = trace w'.
Proof.
  intros Hmiss Hf. unfold memoize_page. rewrite Hmiss, Hf.
  eexists. split; [reflexivity|]. repeat split.
Qed.

Lemma not_found_world (E : Env) (slug : string) (locale : option string)
    (w : World) (raw gh : string) (probe response : Response) :
  get_pages_gh_urls E slug locale w = (Return (raw, gh), w) ->
  http E (sent w) HEAD (raw +:+ ".md") = inl probe ->
  http E (S (sent w)) GET (raw +:+ "." +:+ extension_of probe) = inl response ->
  status_code response = 404%Z ->
  exists w',
    get_page_content_locale_uncached E slug locale w
    = (Return (None, gh +:+ "." +:+ extension_of probe, extension_of probe), w')
    /\ sent w' = S (S (sent w))
    /\ fallback w' = fallback w
    /\ memo_page w' = memo_page w
    /\ trace w'
       = trace w
         ++ [ HttpRequest HEAD (raw +:+ ".md") None;
              HttpRequest GET (raw +:+ "." +:+ extension_of probe) (Some 5%Z) ].
Proof.
  intros Hurls Hprobe Hget H404. unfold extension_of in *. run_page.
  rewrite Hurls. simpl. rewrite Hprobe. simpl.
  destruct (status_code probe =? 200)%Z; simpl; rewrite Hget; simpl;
    rewrite H404; simpl;
    (eexists; split; [reflexivity|]; repeat (split; [reflexivity|]); simpl;
     rewrite <- !app_assoc; reflexivity).
Qed.

(** When the page is answered 404 both for the request's locale and
    without a locale, [get_page_content] ends in the 404 outcome after
    exactly four requests, having logged the miss and left the fallback
    tier as it was. *)
Theorem get_page_content_not_found (E : Env) (slug l : string) (w : World)
    (raw1 raw2 gh : string) (probe1 response1 probe2 response2 : Response) :
  lang_code E = Some l ->
  memo_page w !! (slug, Some l) = None ->
  memo_page w !! (slug, None) = None ->
  get_pages_gh_urls E slug (Some l) w = (Return (raw1, gh), w) ->
  get_pages_gh_urls E slug None w = (Return (raw2, gh), w) ->
  http E (sent w) HEAD (raw1 +:+ ".md") = inl probe1 ->
  http E (S (sent w)) GET (raw1 +:+ "." +:+ extension_of probe1)
  = inl response1 ->
  status_code response1 = 404%Z ->
  http E (S (S (sent w))) HEAD (raw2 +:+ ".md") = inl probe2 ->
  http E (S (S (S (sent w)))) GET (raw2 +:+ "." +:+ extension_of probe2)
  = inl response2 ->
  status_code response2 = 404%Z ->
  exists w',
    get_page_content E slug w = (Raise (HTTPException 404), w')
    /\ fallback w' = fallback w
    /\ trace w'
       = trace w
         ++ [ HttpRequest HEAD (raw1 +:+ ".md") None;
              HttpRequest GET (raw1 +:+ "." +:+ extension_of probe1) (Some 5%Z);
              HttpRequest HEAD (raw2 +:+ ".md") None;
              HttpRequest GET (raw2 +:+ "." +:+ extension_of probe2) (Some 5%Z);
              Log ("No content found inc. from cache for page " +:+ slug) None ].
Proof.
  intros Hlang Hm1 Hm2 Hu1 Hu2 Hp1 Hg1 H1 Hp2 Hg2 H2.
  destruct (not_found_world E slug (Some l) w raw1 gh probe1 response1
              Hu1 Hp1 Hg1 H1) as (wa & Hra & Hsa & Hfa & Hma & Hta).
  destruct (memoize_page_miss PAGE_CACHE_DURATION (slug, Some l) _ w wa _
              Hm1 Hra) as (wb & Hrb & Hsb & Hfb & Hmb & Htb).
  rewrite Hsa in Hsb.
  assert (Hm2b : memo_page wb !! (slug, None) = None).
  { rewrite Hmb, lookup_insert_ne by discriminate. now rewrite Hma. }
  rewrite <- Hsb in Hp2, Hg2.
  pose proof (get_pages_gh_urls_any_world E slug None w wb _ Hu2) as Hu2b.
  destruct (not_found_world E slug None wb raw2 gh probe2 response2
              Hu2b Hp2 Hg2 H2) as (wc & Hrc & Hsc & Hfc & Hmc & Htc).
  destruct (memoize_page_miss PAGE_CACHE_DURATION (slug, None) _ wb wc _
              Hm2b Hrc) as (wd & Hrd & Hsd & Hfd & Hmd & Htd).
  unfold get_page_content. rewrite Hlang. simpl.
  unfold bind at 1. fold (get_page_content_locale E slug (Some l)).
  unfold get_page_content_locale at 1. rewrite Hrb. simpl.
  unfold bind at 1. unfold get_page_content_locale at 1. rewrite Hrd. simpl.
  unfold bind, log_error, abort, raise, emit. simpl.
  eexists. split; [reflexivity|]. simpl. split.
  - now rewrite Hfd, Hfc, Hfb, Hfa.
  - rewrite Htd, Htc, Htb, Hta, <- !app_assoc. reflexivity.
Qed.

Lemma get_page_content_not_found_witness :
  exists w',
    get_page_content Sample.env_404_twice "faq" (Sample.world ∅)
    = (Raise (HTTPException 404), w')
    /\ fallback w' = ∅.
Proof.
  destruct (get_page_content_not_found Sample.env_404_twice "faq" "fr"
              (Sample.world ∅)
              "https://raw.githubusercontent.com/org/pages/master/pages/fr/faq"
              "https://raw.githubusercontent.com/org/pages/master/pages/faq"
              "https://github.com/org/pages/blob/master/pages/faq"
              {| status_code := 200; text := ""; content := "" |}
              {| status_code := 404; text := ""; content := "" |}
              {| status_code := 404; text := ""; content := "" |}
              {| status_code := 404; text := ""; content := "" |}
              eq_refl eq_refl eq_refl eq_refl eq_refl eq_refl eq_refl eq_refl
              eq_refl eq_refl eq_refl) as (w' & H1 & H2 & _).
  exists w'. split; [exact H1 | exact H2].
Defined.

Lemma fallback_read_on_error_status_witness :
  exists w',
    get_page_content_locale_uncached Sample.env_503 "faq" None
      (Sample.world {[ "pages-content-faq-default" := "<h1>FAQ</h1>" ]})
    = (Return (Some "<h1>FAQ</h1>",
               "https://github.com/org/pages/blob/master/pages/faq.md", "md"),
       w')
    /\ fallback w' = {[ "pages-content-faq-default" := "<h1>FAQ</h1>" ]}.
Proof.
  destruct (fallback_read_on_error_status Sample.env_503 "faq" None
              (Sample.world {[ "pages-content-faq-default" := "<h1>FAQ</h1>" ]})
              "https://raw.githubusercontent.com/org/pages/master/pages/faq"
              "https://github.com/org/pages/blob/master/pages/faq"
              {| status_code := 200; text := ""; content := "" |}
              {| status_code := 503; text := "Service Unavailable";
                 content := "Service Unavailable" |}
              eq_refl eq_refl eq_refl ltac:(simpl; lia) ltac:(discriminate))
    as (w' & H1 & H2 & _).
  exists w'. split; [exact H1 | exact H2].
Defined.


Lemma string_app_assoc (a b c : string) : (a +:+ b) +:+ c = a +:+ b +:+ c.
Proof.
  induction a as [|x a IH]; [reflexivity|].
  change (String x ((a +:+ b) +:+ c) = String x (a +:+ b +:+ c)).
  now rewrite IH.
Qed.

(** The fallback key does not tell all pages apart: no locale and the
    locale [default] share a key, and so do a slug ending in [-x] with
    locale [y] and the slug without it with locale [x-y]. *)
Lemma page_cache_key_aliases (slug x y : string) :
  page_cache_key slug None = page_cache_key slug (Some "default")
  /\ page_cache_key (slug +:+ "-" +:+ x) (Some y)
     = page_cache_key slug (Some (x +:+ "-" +:+ y)).
Proof.
  unfold page_cache_key. split; [reflexivity|].
  now rewrite !string_app_assoc.
Qed.

(** Hence a failed fetch can return another page's body: after a page
    has been fetched, a fetch for a different slug and locale with the
    same key, whose GET raises, returns the body stored by the first. *)
Theorem fallback_shared_between_aliased_keys (E : Env)
    (slug1 slug2 : string) (locale1 locale2 : option string) (w : World)
    (raw1 gh1 raw2 gh2 : string) (probe1 response1 probe2 : Response)
    (e : request_exception) :
  page_cache_key slug1 locale1 = page_cache_key slug2 locale2 ->
  get_pages_gh_urls E slug1 locale1 w = (Return (raw1, gh1), w) ->
  get_pages_gh_urls E slug2 locale2 w = (Return (raw2, gh2), w) ->
  http E (sent w) HEAD (raw1 +:+ ".md") = inl probe1 ->
  http E (S (sent w)) GET (raw1 +:+ "." +:+ extension_of probe1)
  = inl response1 ->
  (status_code response1 < 400 \/ 600 <= status_code response1)%Z ->
  http E (S (S (sent w))) HEAD (raw2 +:+ ".md") = inl probe2 ->
  http E (S (S (S (sent w)))) GET (raw2 +:+ "." +:+ extension_of probe2)
  = inr e ->
  exists w1 w2,
    get_page_content_locale_uncached E slug1 locale1 w
    = (Return (Some (text response1),
               gh1 +:+ "." +:+ extension_of probe1, extension_of probe1), w1)
    /\ get_page_content_locale_uncached E slug2 locale2 w1
       = (Return (Some (text response1),
                  gh2 +:+ "." +:+ extension_of probe2, extension_of probe2),
          w2).
Proof.
  intros Hkey Hu1 Hu2 Hp1 Hg1 Hok Hp2 Hg2.
  destruct (fallback_written_on_success E slug1 locale1 w raw1 gh1 probe1
              response1 Hu1 Hp1 Hg1 Hok) as (w1 & Hrun & Hfb & _ & Hsent).
  pose proof (get_pages_gh_urls_any_world E slug2 locale2 w w1 _ Hu2) as Hu2'.
  rewrite <- Hsent in Hp2, Hg2.
  destruct (fallback_read_when_get_raises E slug2 locale2 w1 raw2 gh2 probe2 e
              Hu2' Hp2 Hg2) as (w2 & Hrun2 & _).
  exists w1, w2. split; [exact Hrun|].
  rewrite Hrun2, Hfb, <- Hkey, lookup_insert_eq. reflexivity.
Qed.

Lemma fallback_shared_between_aliased_keys_witness :
  exists w1 w2,
    get_page_content_locale_uncached Sample.env_ok_then_timeout "faq-2024"
      (Some "fr") (Sample.world ∅)
    = (Return (Some "<h1>FAQ</h1>",
               "https://github.com/org/pages/blob/master/pages/faq-2024.md",
               "md"), w1)
    /\ get_page_content_locale_uncached Sample.env_ok_then_timeout "faq"
         (Some "2024-fr") w1
       = (Return (Some "<h1>FAQ</h1>",
                  "https://github.com/org/pages/blob/master/pages/faq.md",
                  "md"), w2).
Proof.
  exact (fallback_shared_between_aliased_keys Sample.env_ok_then_timeout
           "faq-2024" "faq" (Some "fr") (Some "2024-fr") (Sample.world ∅)
           "https://raw.githubusercontent.com/org/pages/master/pages/fr/faq-2024"
           "https://github.com/org/pages/blob/master/pages/faq-2024"
           "https://raw.githubusercontent.com/org/pages/master/pages/2024-fr/faq"
           "https://github.com/org/pages/blob/master/pages/faq"
           {| status_code := 200; text := ""; content := "" |}
           {| status_code := 200; text := "<h1>FAQ</h1>";
              content := "<h1>FAQ</h1>" |}
           {| status_code := 200; text := ""; content := "" |}
           Timeout eq_refl eq_refl eq_refl eq_refl eq_refl
           ltac:(left; simpl; lia) eq_refl eq_refl).
Defined.

(* ===================================================================== *)
(** * Further properties of the feed summary                             *)
(* ===================================================================== *)

Lemma feed_request_more (E : Env) (template code : string)
    (codes : list string) (evs : list event) :
  Forall (feed_request E template codes) evs ->
  Forall (feed_request E template (code :: codes)) evs.
Proof.
  intros H. eapply Forall_impl; [exact H|]. intros e (c & u & Hin & Hf & ->).
  exists c, u. split; [now right | split; [exact Hf | reflexivity]].
Qed.

Lemma fetch_feed_requests (E : Env) (template : string) (codes : list string) :
  forall (feed : option Feed) (w w' : World) (r : result (option Feed)),
    fetch_feed E template codes feed w = (r, w') ->
    exists evs,
      trace w' = trace w ++ evs
      /\ (length (http_requests evs) <= length codes)%nat
      /\ Forall (feed_request E template codes) (http_requests evs)
      /\ fallback w' = fallback w.
Proof.
  induction codes as [|code codes IH]; intros feed w w' r.
  - intros [= <- <-]. exists []. simpl. rewrite app_nil_r. repeat split; auto.
  - simpl fetch_feed. unfold bind at 1, lift at 1.
    destruct (str_format E template code) as [url|e] eqn:Hf.
    + assert (Hreq : feed_request E template (code :: codes)
                       (HttpRequest GET url (Some WP_TIMEOUT))).
      { exists code, url. repeat split; [now left | exact Hf]. }
      unfold try_except_else, requests_get, send.
      destruct (http E (sent w) GET url) as [response|e].
      * destruct (0 <? length (entries (feedparser_parse E (content response))))%nat.
        -- intros [= <- <-].
           exists [HttpRequest GET url (Some WP_TIMEOUT)]. simpl.
           repeat split; [lia|]. constructor; [exact Hreq | constructor].
        -- intros H. apply IH in H as (evs & Ht & Hlen & Hall & Hfb).
           exists (HttpRequest GET url (Some WP_TIMEOUT) :: evs).
           rewrite Ht, Hfb. simpl. rewrite <- app_assoc. simpl.
           repeat split; [lia|].
           constructor; [exact Hreq | now apply feed_request_more].
      * simpl. unfold bind at 1, log_error at 1.
        intros H. apply IH in H as (evs & Ht & Hlen & Hall & Hfb).
        eexists (HttpRequest GET url (Some WP_TIMEOUT) :: Log _ _ :: evs).
        rewrite Ht, Hfb. simpl. rewrite <- !app_assoc. simpl.
        split; [reflexivity|]. repeat split; [lia|].
        constructor; [exact Hreq | now apply feed_request_more].
    + intros [= <- <-]. exists []. simpl. rewrite app_nil_r.
      repeat split; auto. lia.
Qed.

(** [get_blog_post] sends at most two requests, each a GET with the
    timeout of 5 of the feed URL formatted for the requested or the
    default language, and it never touches the fallback tier of the
    pages. *)
Theorem get_blog_post_requests (E : Env) (lang : string) (w : World) :
  exists evs,
    trace (snd (get_blog_post_uncached E lang w)) = trace w ++ evs
    /\ (length (http_requests evs) <= 2)%nat
    /\ Forall (feed_request E (default "" (WP_ATOM_URL E))
                 [lang; DEFAULT_LANGUAGE E]) (http_requests evs)
    /\ fallback (snd (get_blog_post_uncached E lang w)) = fallback w.
Proof.
  unfold get_blog_post_uncached.
  destruct (truthy (WP_ATOM_URL E)).
  - unfold bind.
    destruct (fetch_feed E (default "" (WP_ATOM_URL E))
                [lang; DEFAULT_LANGUAGE E] None w) as [r w1] eqn:Hfetch.
    destruct (fetch_feed_requests E _ _ _ _ _ _ Hfetch)
      as (evs & Ht & Hlen & Hall & Hfb).
    exists evs.
    destruct r as [[feed|]|e]; simpl; try (repeat split; assumption).
    destruct (entries feed) as [|post rest]; simpl;
      [repeat split; assumption|].
    unfold lift, ret. destruct (summarize E post); simpl;
      repeat split; assumption.
  - exists []. simpl. rewrite app_nil_r. repeat split; auto.
Qed.





(** Thumbnail resolution leaves the text of the summary alone: a summary
    carries the entry's title and link, its parsed date, and the stripped
    text of the entry's [summary] field or, without one, of its content. *)
Theorem summarize_keeps_entry_fields (E : Env) (post : Post.t)
    (blogpost : Blogpost.t) :
  summarize E post = Return blogpost ->
  Blogpost.title blogpost = Post.title post
  /\ Blogpost.link blogpost = Post.link post
  /\ dateutil_parse E (Post.published post) = Some (Blogpost.date blogpost)
  /\ exists content,
       post_content post = Return content
       /\ strip_tags (post_summary post content)
          = Return (Blogpost.summary blogpost).
Proof.
  unfold summarize.
  destruct (dateutil_parse E (Post.published post)) as [date|]; simpl;
    [|discriminate].
  destruct (post_content post) as [content|e]; simpl; [|discriminate].
  destruct (strip_tags (post_summary post content)) as [summary|e] eqn:Hs;
    simpl; [|discriminate].
  unfold thumbnail_from_media, thumbnail_from_enclosures,
    thumbnail_from_content.
  destruct (Post.media_thumbnail post) as [|thumbnail others]; simpl.
  - destruct (List.find accepted_enclosure (Post.enclosures post)); simpl.
    + intros [= <-]. simpl. repeat split. now exists content.
    + destruct content as [html|]; [|discriminate].
      destruct (Re.search RE_POST_IMG_flags RE_POST_IMG html) as [mt|].
      * destruct (Re.group "src" mt) as [src|]; [|discriminate].
        intros [= <-].
        destruct (Re.group "srcset" mt) as [v1|];
          destruct (Re.group "sizes" mt) as [v2|];
          try destruct (negb (v1 =? "")); try destruct (negb (v2 =? ""));
          simpl; repeat split; now exists (Some html).
      * intros [= <-]. simpl. repeat split. now exists (Some html).
  - intros [= <-]. simpl. repeat split. now exists content.
Qed.

Lemma summarize_keeps_entry_fields_witness :
  exists blogpost,
    summarize Sample.env_feed Sample.post_with_summary = Return blogpost
    /\ Blogpost.summary blogpost = "In <b>short</b>"
    /\ Blogpost.image_url blogpost = Some "http://a/b.png"
    /\ Blogpost.title blogpost = "Open data day".
Proof.
  eexists. split; [vm_compute; reflexivity|].
  split; [reflexivity|]. split; [reflexivity|].
  eapply (summarize_keeps_entry_fields Sample.env_feed
            Sample.post_with_summary).
  vm_compute. reflexivity.
Defined.



(** The memoized summary: once [get_blog_post] has returned a summary,
    calling it again before the clock moves returns the same summary and
    changes nothing, so the feed is not requested again. *)
Theorem get_blog_post_memoized (E : Env) (lang : string) (w w1 : World)
    (blogpost : Blogpost.t) :
  get_blog_post E lang w = (Return (Some blogpost), w1) ->
  get_blog_post E lang w1 = (Return (Some blogpost), w1).
Proof.
  unfold get_blog_post, memoize_post.
  destruct (memo_post w !! lang) as [[expires [rv|]]|] eqn:Hm;
    [ destruct (now w <? expires)%Z eqn:Hfresh;
      [ intros [= <- <-]; now rewrite Hm, Hfresh | ] | | ];
    (destruct (get_blog_post_uncached E lang w) as [[rv'|e] w'];
     [|discriminate];
     intros [= -> <-]; simpl; rewrite lookup_insert_eq;
     assert (Hlt : (now w' <? now w' + 50)%Z = true) by lia;
     now rewrite Hlt).
Qed.

Lemma get_blog_post_memoized_witness :
  exists w1 blogpost,
    get_blog_post Sample.env_feed "fr" (Sample.world ∅)
    = (Return (Some blogpost), w1)
    /\ get_blog_post Sample.env_feed "fr" w1 = (Return (Some blogpost), w1).
Proof.
  eexists _, _. split; [vm_compute; reflexivity|].
  apply (get_blog_post_memoized Sample.env_feed "fr" (Sample.world ∅)).
  vm_compute. reflexivity.
Defined.

(* ===================================================================== *)
(** * Further properties of the two patterns                             *)
(* ===================================================================== *)

Lemma skipn_nth_error_Some {A} (l : list A) (i : nat) (x : A) :
  nth_error l i = Some x -> skipn i l = x :: skipn (S i) l.
Proof.
  revert i. induction l as [|a l IH]; intros [|i]; simpl; try discriminate.
  - now intros [= ->].
  - intros H. rewrite (IH i H). reflexivity.
Qed.

Lemma skipn_nth_error_None {A} (l : list A) (i : nat) :
  nth_error l i = None -> skipn i l = [].
Proof.
  revert i. induction l as [|a l IH]; intros [|i]; simpl; try discriminate;
    auto.
Qed.

Lemma text_chars (s : string) : Text.text (chars s) = s.
Proof. apply string_of_list_ascii_of_string. Qed.

(** Without a match anywhere, substitution returns the text as it is. *)
Lemma sub_from_no_match (fl : Re.flags) (s : list ascii) (r : Re.re)
    (repl : list ascii) :
  (forall i, Re.match_at fl s r i = None) ->
  forall fuel i, Re.sub_from fl s r repl fuel i = skipn i s.
Proof.
  intros Hnone. induction fuel as [|fuel IH]; intros i; simpl;
    [reflexivity|].
  rewrite Hnone. destruct (nth_error s i) as [c|] eqn:Hc.
  - rewrite IH. symmetry. now apply skipn_nth_error_Some.
  - symmetry. now apply skipn_nth_error_None.
Qed.

Lemma search_from_no_match (fl : Re.flags) (s : list ascii) (r : Re.re) :
  (forall i, Re.match_at fl s r i = None) ->
  forall fuel i, Re.search_from fl s r fuel i = None.
Proof.
  intros Hnone. induction fuel as [|fuel IH]; intros i; simpl;
    rewrite Hnone; [reflexivity | apply IH].
Qed.

(** Under [re.I] a character that is not a letter matches itself only. *)
Lemma chr_eq_lt (x : ascii) :
  Re.chr_eq RE_STRIP_TAGS_flags "<" x = true -> x = "<"%char.
Proof.
  destruct x as [[] [] [] [] [] [] [] []]; vm_compute; intros H;
    first [reflexivity | discriminate H].
Qed.

Lemma chr_eq_slash (x : ascii) :
  Re.chr_eq RE_POST_IMG_flags "/" x = true -> x = "/"%char.
Proof.
  destruct x as [[] [] [] [] [] [] [] []]; vm_compute; intros H;
    first [reflexivity | discriminate H].
Qed.

Lemma chr_eq_gt (x : ascii) :
  Re.chr_eq RE_POST_IMG_flags ">" x = true -> x = ">"%char.
Proof.
  destruct x as [[] [] [] [] [] [] [] []]; vm_compute; intros H;
    first [reflexivity | discriminate H].
Qed.

Lemma strip_tags_needs_lt (s : list ascii) (i : nat) :
  nth_error s i <> Some "<"%char ->
  Re.match_at RE_STRIP_TAGS_flags s RE_STRIP_TAGS i = None.
Proof.
  intros Hne. unfold Re.match_at.
  change RE_STRIP_TAGS
    with (Re.Cat (Re.Chr "<")
            (Re.seq
               [ Re.Opt true (Re.Chr "/");
                 Re.Grp "1"
                   (Re.Alt (Re.lit "img")
                      (Re.Alt (Re.lit "br")
                         (Re.Alt (Re.lit "p")
                            (Re.Alt (Re.lit "div")
                               (Re.Alt (Re.lit "ul")
                                  (Re.Alt (Re.lit "li") (Re.lit "ol")))))));
                 Re.Rep false 0 (Re.Cls true [ "<"%char; ">"%char ]);
                 Re.Chr ">" ])).
  cbn [Re.m]. unfold Re.one.
  destruct (nth_error s i) as [x|]; [|reflexivity].
  destruct (Re.chr_eq RE_STRIP_TAGS_flags "<" x) eqn:Hx; [|reflexivity].
  apply chr_eq_lt in Hx. subst x. now contradiction Hne.
Qed.

(** Text without any [<] goes through the tag stripper untouched but for
    the trimming of its ends: no tag, nothing removed. *)
Theorem strip_tags_plain_text (s : string) :
  (forall i, nth_error (chars s) i <> Some "<"%char) ->
  Re.sub RE_STRIP_TAGS_flags RE_STRIP_TAGS "" s = s
  /\ strip_tags (Some s) = Return (strip s).
Proof.
  intros Hplain.
  assert (Hsub : Re.sub RE_STRIP_TAGS_flags RE_STRIP_TAGS "" s = s).
  { unfold Re.sub. rewrite sub_from_no_match.
    - simpl. apply text_chars.
    - intros i. apply strip_tags_needs_lt, Hplain. }
  split; [exact Hsub|]. unfold strip_tags. now rewrite Hsub.
Qed.

Lemma strip_tags_plain_text_witness :
  strip_tags (Some "  2 > 1 & x  ") = Return "2 > 1 & x".
Proof.
  refine (eq_trans
            (proj2 (strip_tags_plain_text "  2 > 1 & x  " _)) eq_refl).
  intros i. do 14 (destruct i as [|i]; [discriminate|]).
  destruct i; discriminate.
Defined.

Lemma m_rep (fl : Re.flags) (s : list ascii) (g : bool) (lo : nat)
    (r : Re.re) (i : nat) (cs : Re.caps)
    (k : nat -> Re.caps -> option (nat * Re.caps)) :
  Re.m fl s (Re.Rep g lo r) i cs k
  = rep_loop (Re.m fl s r) g lo k (S (length s - i)) 0 i cs.
Proof. reflexivity. Qed.

Lemma rep_loop_reaches_continuation
    (body : nat -> Re.caps -> (nat -> Re.caps -> option (nat * Re.caps))
            -> option (nat * Re.caps))
    (g : bool) (lo : nat) (k : nat -> Re.caps -> option (nat * Re.caps))
    (res : nat * Re.caps) :
  (forall i cs k', body i cs k' = Some res ->
                   exists j cs', k' j cs' = Some res) ->
  forall fuel n i cs,
    rep_loop body g lo k fuel n i cs = Some res ->
    exists j cs', k j cs' = Some res.
Proof.
  intros Hbody. induction fuel as [|fuel IH]; intros n i cs; simpl;
    [discriminate|].
  destruct g.
  - destruct (body i cs _) eqn:H1.
    + intros [= <-]. apply Hbody in H1 as (j & cs' & H1).
      destruct (i <? j)%nat; [|discriminate]. now apply IH in H1.
    + destruct (lo <=? n)%nat; [eauto | discriminate].
  - destruct (if (lo <=? n)%nat then k i cs else None) eqn:H1.
    + intros [= <-]. destruct (lo <=? n)%nat; [eauto | discriminate].
    + intros H. apply Hbody in H as (j & cs' & H).
      destruct (i <? j)%nat; [|discriminate]. now apply IH in H.
Qed.

(** A successful match is a success of its continuation. *)
Lemma m_reaches_continuation (fl : Re.flags) (s : list ascii) (r : Re.re) :
  forall i cs k res,
    Re.m fl s r i cs k = Some res -> exists j cs', k j cs' = Some res.
Proof.
  induction r as [ | c | | | neg l | r1 IH1 r2 IH2 | r1 IH1 r2 IH2
                 | g r1 IH1 | g lo r1 IH1 | name r1 IH1 ];
    intros i cs k res.
  - cbn [Re.m]. eauto.
  - cbn [Re.m]. unfold Re.one. destruct (nth_error s i); [|discriminate].
    destruct (Re.chr_eq fl c a); [eauto | discriminate].
  - cbn [Re.m]. unfold Re.one. destruct (nth_error s i); [|discriminate].
    destruct (Re.dot_ok fl a); [eauto | discriminate].
  - cbn [Re.m]. unfold Re.one. destruct (nth_error s i); [|discriminate].
    destruct (is_space a); [eauto | discriminate].
  - cbn [Re.m]. unfold Re.one. destruct (nth_error s i); [|discriminate].
    destruct (Re.cls_ok fl neg l a); [eauto | discriminate].
  - cbn [Re.m]. intros H. apply IH1 in H as (j & cs' & H). now apply IH2 in H.
  - cbn [Re.m]. destruct (Re.m fl s r1 i cs k) eqn:H1.
    + intros [= <-]. now apply IH1 in H1.
    + apply IH2.
  - cbn [Re.m]. destruct g.
    + destruct (Re.m fl s r1 i cs k) eqn:H1.
      * intros [= <-]. now apply IH1 in H1.
      * eauto.
    + destruct (k i cs) eqn:Hk.
      * intros [= <-]. eauto.
      * apply IH1.
  - rewrite m_rep. apply rep_loop_reaches_continuation.
    intros i' cs' k'. apply IH1.
  - cbn [Re.m]. intros H. apply IH1 in H as (j & cs' & H). eauto.
Qed.

Lemma seq_reaches_last (fl : Re.flags) (s : list ascii) (last : Re.re)
    (rs : list Re.re) :
  forall i cs k res,
    Re.m fl s (Re.seq (rs ++ [last])) i cs k = Some res ->
    exists j cs', Re.m fl s last j cs' k = Some res.
Proof.
  induction rs as [|r rs IH]; intros i cs k res; simpl app.
  - simpl Re.seq. eauto.
  - replace (Re.seq (r :: rs ++ [last]))
      with (Re.Cat r (Re.seq (rs ++ [last])))
      by (destruct rs; reflexivity).
    cbn [Re.m]. intros H.
    apply m_reaches_continuation in H as (j & cs' & H). now apply IH in H.
Qed.

Lemma has_self_closing_at (l : list ascii) (j : nat) :
  nth_error l j = Some "/"%char ->
  nth_error l (S j) = Some ">"%char ->
  has_self_closing l = true.
Proof.
  revert j. induction l as [|a l IH]; intros [|j]; simpl; try discriminate.
  - intros [= ->]. destruct l as [|b l]; simpl; [discriminate|].
    intros [= ->]. reflexivity.
  - intros H1 H2. destruct l as [|b l]; [destruct j; discriminate|].
    rewrite (IH j H1 H2). apply orb_true_r.
Qed.

Lemma post_img_needs_self_closing (s : list ascii) (i : nat) :
  has_self_closing s = false ->
  Re.match_at RE_POST_IMG_flags s RE_POST_IMG i = None.
Proof.
  intros Hnone. unfold Re.match_at.
  destruct (Re.m RE_POST_IMG_flags s RE_POST_IMG i [] _) as [res|] eqn:Hm;
    [|reflexivity].
  exfalso. unfold RE_POST_IMG in Hm.
  match type of Hm with
  | Re.m _ _ (Re.seq [?a; ?b; ?c; ?d; ?e]) _ _ _ = _ =>
      change (Re.seq [a; b; c; d; e])
        with (Re.seq ([a; b; c; d] ++ [Re.Cat (Re.Chr "/") (Re.Chr ">")]))
        in Hm
  end.
  apply seq_reaches_last in Hm as (j & cs' & Hm).
  cbn [Re.m] in Hm. unfold Re.one in Hm.
  destruct (nth_error s j) as [x|] eqn:Hx; [|discriminate].
  destruct (Re.chr_eq RE_POST_IMG_flags "/" x) eqn:Hcx; [|discriminate].
  destruct (nth_error s (S j)) as [y|] eqn:Hy; [|discriminate].
  destruct (Re.chr_eq RE_POST_IMG_flags ">" y) eqn:Hcy; [|discriminate].
  apply chr_eq_slash in Hcx. apply chr_eq_gt in Hcy. subst x y.
  rewrite (has_self_closing_at s j Hx Hy) in Hnone. discriminate.
Qed.

(** Content in which no [/] is directly followed by [>] never yields an
    image: the search finds nothing and the summary is left as it is, so
    an image tag that is not self-closed is only picked up when some later
    tag is. *)
Theorem image_needs_self_closing_tag (html : string) (blogpost : Blogpost.t) :
  has_self_closing (chars html) = false ->
  Re.search RE_POST_IMG_flags RE_POST_IMG html = None
  /\ thumbnail_from_content (Some html) blogpost = Return blogpost.
Proof.
  intros Hnone.
  assert (Hs : Re.search RE_POST_IMG_flags RE_POST_IMG html = None).
  { unfold Re.search. rewrite search_from_no_match; [reflexivity|].
    intros i. now apply post_img_needs_self_closing. }
  split; [exact Hs|].
  unfold thumbnail_from_content. rewrite Hs.
  destruct (Blogpost.image_url blogpost); reflexivity.
Qed.

Lemma image_needs_self_closing_tag_witness :
  thumbnail_from_content
    (Some ("<p>Map: <img src=" +:+ dq +:+ "https://a/m.png" +:+ dq
           +:+ "></p><br>"))
    Sample.bare_blogpost
  = Return Sample.bare_blogpost.
Proof.
  exact (proj2 (image_needs_self_closing_tag
                  ("<p>Map: <img src=" +:+ dq +:+ "https://a/m.png" +:+ dq
                   +:+ "></p><br>")
                  Sample.bare_blogpost eq_refl)).
Defined.

(* ===================================================================== *)
(** * Further properties of the resource resolver                        *)
(* ===================================================================== *)

Lemma head_filter_Some {A} (f : A -> bool) (l : list A) (x : A) :
  head (List.filter f l) = Some x -> In x l /\ f x = true.
Proof.
  intros H. assert (Hin : In x (List.filter f l)).
  { destruct (List.filter f l); [discriminate|].
    injection H as ->. now left. }
  now apply filter_In in Hin.
Qed.


Lemma get_object_In (E : Env) (model : model) (id_or_slug : string)
    (o : Obj.t) :
  get_object E model id_or_slug = Some o -> In o (objects E model).
Proof.
  unfold get_object.
  destruct (head (List.filter (fun o => String.eqb (Obj.slug o) id_or_slug)
                    (objects E model))) as [o1|] eqn:Hslug.
  - intros [= <-]. now apply head_filter_Some in Hslug.
  - destruct (valid_object_id id_or_slug); [|discriminate].
    intros Hid. now apply head_filter_Some in Hid.
Qed.




Lemma tag_markers_bare (refs : list (option string)) :
  exists n, tag_markers refs = repeat "tag#" n.
Proof.
  induction refs as [|[r|] refs (n & IH)]; simpl.
  - now exists 0%nat.
  - unfold is_tag_marker.
    destruct (String.eqb_spec (prefix 4 (strip r)) "tag#") as [Heq|_].
    + exists (S n). simpl. now rewrite IH, Heq.
    + now exists n.
  - now exists n.
Qed.

(** Of a tag marker only the prefix is kept: whatever follows [tag#] in a
    reference, the tags handed to the query are [n] copies of [tag#], so
    the list of a page depends on its tag markers through their number
    only. *)
Theorem tag_values_are_dropped (E : Env) (model : model)
    (listed : option (list (option string))) :
  exists n,
    snd (collect E model (default [] listed) [] []) = repeat "tag#" n
    /\ resolve E model listed
       = direct_objects E model (default [] listed)
         ++ match n with
            | O => []
            | S _ => get_objects_from_tags E model (repeat "tag#" n)
            end.
Proof.
  destruct (tag_markers_bare (default [] listed)) as (n & Hn).
  exists n. unfold resolve. rewrite collect_direct_then_markers. simpl.
  rewrite Hn. split; [reflexivity|].
  destruct n; simpl; [now rewrite app_nil_r | reflexivity].
Qed.

(** Every object handed to the template is an object of the repository. *)
Theorem resolve_members (E : Env) (model : model)
    (listed : option (list (option string))) (o : Obj.t) :
  In o (resolve E model listed) -> In o (objects E model).
Proof.
  unfold resolve. rewrite collect_direct_then_markers. simpl.
  assert (Hd : In o (direct_objects E model (default [] listed)) ->
               In o (objects E model)).
  { unfold direct_objects. intros H. apply in_flat_map in H as (r & _ & H).
    destruct r as [r|]; [|destruct H].
    destruct (is_tag_marker r); [destruct H|].
    destruct (get_object E model (strip r)) as [o'|] eqn:Hg; [|destruct H].
    destruct H as [<-|[]]. now apply get_object_In in Hg. }
  destruct (0 <? length (tag_markers (default [] listed)))%nat; [|exact Hd].
  intros H. apply in_app_or in H as [H|H]; [now apply Hd|].
  now apply get_objects_from_tags_members in H.
Qed.

Lemma resolve_members_witness :
  In (Sample.dataset "5f1a00000000000000000002" "roads" [] 20)
    (resolve Sample.env_db Dataset (Some [Some " roads "]))
  /\ In (Sample.dataset "5f1a00000000000000000002" "roads" [] 20)
       (objects Sample.env_db Dataset).
Proof.
  assert (H : In (Sample.dataset "5f1a00000000000000000002" "roads" [] 20)
                (resolve Sample.env_db Dataset (Some [Some " roads "])))
    by (vm_compute; now left).
  split; [exact H|].
  exact (resolve_members Sample.env_db Dataset (Some [Some " roads "]) _ H).
Defined.

Lemma direct_objects_trimmed (E : Env) (model : model)
    (refs : list (option string)) :
  direct_objects E model refs
  = flat_map
      (fun r => if String.eqb (prefix 4 r) "tag#" then []
                else match get_object E model r with
                     | Some o => [o]
                     | None => []
                     end)
      (trimmed_references refs).
Proof.
  induction refs as [|[r|] refs IH]; simpl; [reflexivity | | exact IH].
  rewrite IH. reflexivity.
Qed.

Lemma tag_markers_trimmed (refs : list (option string)) :
  tag_markers refs
  = flat_map
      (fun r => if String.eqb (prefix 4 r) "tag#" then [prefix 4 r] else [])
      (trimmed_references refs).
Proof.
  induction refs as [|[r|] refs IH]; simpl; [reflexivity | | exact IH].
  rewrite IH. reflexivity.
Qed.

(** Null entries and blanks around a reference do not count: two
    front-matter lists that are the same once the nulls are dropped and
    the references trimmed give the same list of objects. *)
Theorem resolve_ignores_nulls_and_padding (E : Env) (model : model)
    (refs1 refs2 : list (option string)) :
  trimmed_references refs1 = trimmed_references refs2 ->
  resolve E model (Some refs1) = resolve E model (Some refs2).
Proof.
  intros H. unfold resolve. rewrite !collect_direct_then_markers. simpl.
  now rewrite !direct_objects_trimmed, !tag_markers_trimmed, H.
Qed.

Lemma resolve_ignores_nulls_and_padding_witness :
  resolve Sample.env_db Dataset
    (Some [None; Some "  roads"; Some "tag#open "; None])
  = resolve Sample.env_db Dataset (Some [Some "roads "; Some " tag#open"]).
Proof.
  exact (resolve_ignores_nulls_and_padding Sample.env_db Dataset
           [None; Some "  roads"; Some "tag#open "; None]
           [Some "roads "; Some " tag#open"] eq_refl).
Defined.
